(** * alx-files_manager: session layer, credential check and file controllers

    A shallow embedding of the request handlers of the files manager
    (utils/redis.js, utils/auth.js, utils/db.js and the controllers) and the
    properties its specification states about them.

    JavaScript numbers are IEEE 754 doubles and are modelled by Rocq's
    primitive floats.  The cache (Redis) is a finite map from keys to a
    value and the time at which the key expires; the Mongo collections are
    lists of documents in insertion order; the disk is a finite map from
    paths to contents; the Bull queues are lists of jobs. *)

From Stdlib Require Import ZArith List Bool Ascii String Strings.Byte Lia.
From Stdlib Require Import Floats.PrimFloat Floats.SpecFloat Floats.FloatOps.
From Stdlib Require Uint63.
From Stdlib Require Floats.FloatAxioms.
From stdpp Require Import base option list strings gmap.

Set Warnings "-register-all".
Local Open Scope string_scope.
Local Open Scope Z_scope.

(* ================================================================== *)
(** ** JavaScript values and built-ins *)
(* ================================================================== *)

(** What an [async] function or a constructor call does: it returns a value
    or throws. *)
Inductive result (A : Type) : Type :=
| Ret (a : A)
| Throw (e : string).
Arguments Ret {A} a.
Arguments Throw {A} e.

#[global] Instance result_ret : MRet result := fun A a => Ret a.
#[global] Instance result_bind : MBind result := fun A B k m =>
  match m with
  | Ret a => k a
  | Throw e => Throw e
  end.

(** [!s] for a string: only the empty string is falsy. *)
Definition falsy (s : string) : bool := String.eqb s "".

(** [!v] for a value that is a string or [undefined]. *)
Definition falsy_opt (v : option string) : bool :=
  match v with
  | None => true
  | Some s => falsy s
  end.

(** [s.split(sep)] for a separator of one character.  The result is never
    empty: [''.split(':')] is [['']]. *)
Fixpoint split (sep : ascii) (s : string) : list string :=
  match s with
  | EmptyString => [EmptyString]
  | String c rest =>
      if Ascii.eqb c sep then EmptyString :: split sep rest
      else match split sep rest with
           | [] => [String c EmptyString]
           | hd :: tl => String c hd :: tl
           end
  end.

(** [l.join(sep)]. *)
Fixpoint join (sep : string) (l : list string) : string :=
  match l with
  | [] => ""
  | [s] => s
  | s :: tl => s ++ sep ++ join sep tl
  end.

(** A value found in [request.query]: the query-string parser builds
    strings, arrays and plain objects; an absent parameter is [undefined]
    ([None] in [option qval]). *)
Inductive qval : Type :=
| QStr (s : string)
| QArr (l : list qval)
| QObj.

(** [String(v)], also what a template literal does to [v]. *)
Fixpoint ToString (v : qval) : string :=
  match v with
  | QStr s => s
  | QArr l => join "," (List.map ToString l)
  | QObj => "[object Object]"
  end.

(** The values the controllers test and convert. *)
Inductive jsval : Type :=
| JUndefined
| JNumber (x : float)
| JQuery (v : qval).

Definition of_query (v : option qval) : jsval :=
  match v with
  | None => JUndefined
  | Some q => JQuery q
  end.

(** [`${v}`] for a query value. *)
Definition template (v : option qval) : string :=
  match v with
  | None => "undefined"
  | Some q => ToString q
  end.

(** [Number.isNaN(v)]: true only for the number NaN; it does not convert
    its argument. *)
Definition Number_isNaN (v : jsval) : bool :=
  match v with
  | JNumber x => PrimFloat.is_nan x
  | _ => false
  end.

(** SameValueZero on numbers, the comparison of [Array.prototype.includes]:
    NaN equals NaN, and +0 equals -0. *)
Definition sameValueZero (x y : float) : bool :=
  PrimFloat.eqb x y || (PrimFloat.is_nan x && PrimFloat.is_nan y).

Definition includes (l : list float) (x : float) : bool :=
  existsb (sameValueZero x) l.

(* ================================================================== *)
(** ** Mongo object ids *)
(* ================================================================== *)

(** An [ObjectId] is twelve bytes.  [String(id)] (what the Redis client
    sends when it is handed an id) is its 24 lower-case hexadecimal digits,
    and [ObjectId(s)] accepts a string of 24 hexadecimal digits or a string
    of 12 bytes, and throws on anything else. *)
Record ObjectId : Type := mkObjectId { oid_bytes : list byte }.

#[global] Instance byte_eq_dec : EqDecision byte := Byte.byte_eq_dec.
#[global] Instance ObjectId_eq_dec : EqDecision ObjectId.
Proof. solve_decision. Defined.

Definition wf_oid (o : ObjectId) : Prop := List.length (oid_bytes o) = 12%nat.

Definition hex_digit (n : N) : ascii :=
  match n with
  | 0%N => "0" | 1%N => "1" | 2%N => "2" | 3%N => "3"
  | 4%N => "4" | 5%N => "5" | 6%N => "6" | 7%N => "7"
  | 8%N => "8" | 9%N => "9" | 10%N => "a" | 11%N => "b"
  | 12%N => "c" | 13%N => "d" | 14%N => "e" | _ => "f"
  end%char.

Definition hex_value (c : ascii) : option N :=
  let n := N_of_ascii c in
  if (48 <=? n)%N && (n <=? 57)%N then Some (n - 48)%N
  else if (97 <=? n)%N && (n <=? 102)%N then Some (n - 87)%N
  else if (65 <=? n)%N && (n <=? 70)%N then Some (n - 55)%N
  else None.

Definition hex_of_byte (b : byte) (tail : string) : string :=
  let n := Byte.to_N b in
  String (hex_digit (n / 16)) (String (hex_digit (n mod 16)) tail).

Fixpoint hex_of_bytes (l : list byte) : string :=
  match l with
  | [] => ""
  | b :: tl => hex_of_byte b (hex_of_bytes tl)
  end.

Fixpoint bytes_of_hex (s : string) : option (list byte) :=
  match s with
  | EmptyString => Some []
  | String h (String l rest) =>
      match hex_value h, hex_value l, bytes_of_hex rest with
      | Some hv, Some lv, Some tl =>
          match Byte.of_N (16 * hv + lv) with
          | Some b => Some (b :: tl)
          | None => None
          end
      | _, _, _ => None
      end
  | String _ EmptyString => None
  end.

Definition toHexString (o : ObjectId) : string := hex_of_bytes (oid_bytes o).

Definition ObjectId_of_string (s : string) : result ObjectId :=
  if Nat.eqb (String.length s) 12 then Ret (mkObjectId (list_byte_of_string s))
  else if Nat.eqb (String.length s) 24 then
    match bytes_of_hex s with
    | Some l => Ret (mkObjectId l)
    | None => Throw "Argument passed in must be a single String of 12 bytes or a string of 24 hex characters"
    end
  else Throw "Argument passed in must be a single String of 12 bytes or a string of 24 hex characters".

(* ================================================================== *)
(** ** Documents, requests, responses and the state of the service *)
(* ================================================================== *)

(** A document of the [users] collection. *)
Record UserDoc : Type := mkUserDoc {
  user_id : ObjectId;          (* _id *)
  user_email : string;
  user_password : string       (* the SHA-1 of the password *)
}.

(** [{ email, id }], what [addUser] and [getUserFromSession] return. *)
Record UserInfo : Type := mkUserInfo {
  info_email : string;
  info_id : ObjectId
}.

(** [parentId] of a file document: the number [0] for the root, or the id
    of a folder. *)
Inductive parentRef : Type :=
| ParentRoot
| ParentId (id : string).

(** A document of the [files] collection, as the controllers read it. *)
Record FileDoc : Type := mkFileDoc {
  file_id : string;
  file_userId : ObjectId;
  file_name : string;
  file_type : string;
  file_isPublic : bool;
  file_parentId : parentRef;
  file_localPath : string      (* read for non-folders only *)
}.

(** Jobs of the two Bull queues of the worker module. *)
Record FileJob : Type := mkFileJob { job_userId : ObjectId; job_fileId : string }.
Record UserJob : Type := mkUserJob { ujob_userId : ObjectId }.

(** The parts of an HTTP request the handlers read: two headers, the path
    parameter, the query string and the fields of the JSON body (a missing
    field is [None], JavaScript's [undefined]). *)
Record request : Type := mkRequest {
  h_authorization : option string;
  h_x_token : option string;
  param_id : string;
  q_size : option qval;
  q_page : option qval;
  q_parentId : option qval;
  b_email : option string;
  b_password : option string;
  b_name : option string;
  b_type : option string;
  b_parentId : option parentRef;
  b_isPublic : option bool;
  b_data : option string
}.

Inductive body : Type :=
| BError (error : string)                       (* json({ error }) *)
| BToken (token : string)                       (* json({ token }) *)
| BUser (u : UserInfo)                          (* json({ email, id }) *)
| BFile (f : FileDoc)                           (* json(file) *)
| BFiles (l : list FileDoc)                     (* json(files) *)
| BData (contentType : option string) (data : list byte)
| BEmpty.                                       (* sendStatus *)

Record response : Type := mkResponse { status : nat; payload : body }.

(** The state the handlers read and write. *)
Record world : Type := mkWorld {
  redis : gmap string (string * Z);   (* key -> value, time of expiry *)
  clock : Z;                          (* the current time, in seconds *)
  users : list UserDoc;
  files : list FileDoc;
  disk : gmap string (list byte);
  fileQueue : list FileJob;
  userQueue : list UserJob
}.

Definition set_redis (r : gmap string (string * Z)) (w : world) : world :=
  mkWorld r (clock w) (users w) (files w) (disk w) (fileQueue w) (userQueue w).
Definition set_clock (t : Z) (w : world) : world :=
  mkWorld (redis w) t (users w) (files w) (disk w) (fileQueue w) (userQueue w).
Definition set_users (u : list UserDoc) (w : world) : world :=
  mkWorld (redis w) (clock w) u (files w) (disk w) (fileQueue w) (userQueue w).
Definition set_files (f : list FileDoc) (w : world) : world :=
  mkWorld (redis w) (clock w) (users w) f (disk w) (fileQueue w) (userQueue w).
Definition set_disk (d : gmap string (list byte)) (w : world) : world :=
  mkWorld (redis w) (clock w) (users w) (files w) d (fileQueue w) (userQueue w).
Definition set_fileQueue (q : list FileJob) (w : world) : world :=
  mkWorld (redis w) (clock w) (users w) (files w) (disk w) q (userQueue w).
Definition set_userQueue (q : list UserJob) (w : world) : world :=
  mkWorld (redis w) (clock w) (users w) (files w) (disk w) (fileQueue w) q.

(** The library functions the code calls and whose bodies are not part of
    the repository. *)
Class Platform : Type := {
  (** the conversion of a string to a number (ECMAScript StringToNumber) *)
  StringToNumber : string -> float;
  (** [sha1(s)] of the sha1 package, as a hexadecimal string *)
  sha1 : string -> string;
  (** [Buffer.from(s, 'base64').toString('utf-8')] *)
  base64_decode : string -> string;
  (** [mime.lookup(name)]: a content type, or [false] *)
  mime_lookup : string -> option string
}.

Section Model.
Context {P : Platform}.

(** [Number(v)]. *)
Definition Number (v : jsval) : float :=
  match v with
  | JUndefined => PrimFloat.nan
  | JNumber x => x
  | JQuery q => StringToNumber (ToString q)
  end.

(* ================================================================== *)
(** ** utils/redis.js: RedisClient *)
(* ================================================================== *)

(** [set(key, value, expiry)]: SETEX, the key expires [expiry] seconds from
    now. *)
Definition redisClient_set (key value : string) (expiry : Z) (w : world) : world :=
  set_redis (<[key := (value, clock w + expiry)]> (redis w)) w.

(** [get(key)]: the value, or [null] when the key is absent or expired. *)
Definition redisClient_get (key : string) (w : world) : option string :=
  match redis w !! key with
  | Some (value, expires) => if clock w <? expires then Some value else None
  | None => None
  end.

(** [del(key)]: the number of keys deleted. *)
Definition redisClient_del (key : string) (w : world) : Z * world :=
  match redisClient_get key w with
  | Some _ => (1, set_redis (delete key (redis w)) w)
  | None => (0, set_redis (delete key (redis w)) w)
  end.

(* ================================================================== *)
(** ** utils/db.js: DBClient *)
(* ================================================================== *)

(** [findOne({ email })]: the first document with that email. *)
Definition findUserByEmail (email : string) (w : world) : option UserDoc :=
  List.find (fun u => String.eqb (user_email u) email) (users w).

(** [findOne({ _id: ObjectId(userId) })]; the conversion throws on a
    malformed id. *)
Definition findUserById (userId : string) (w : world) : result (option UserDoc) :=
  oid ← ObjectId_of_string userId;
  mret (List.find (fun u => bool_decide (user_id u = oid)) (users w)).

(** [addUser(email, password)].  [newId] is the [_id] the driver gives the
    inserted document. *)
Definition addUser (newId : ObjectId) (email password : string) (w : world)
  : UserInfo * world :=
  let hashedPassword := sha1 password in
  let doc := mkUserDoc newId email hashedPassword in
  (mkUserInfo (user_email doc) (user_id doc), set_users (users w ++ [doc]) w).

(* ================================================================== *)
(** ** utils/auth.js (it follows the Redis client in src/utils/redis.js) *)
(* ================================================================== *)

(** [getBasicAuthToken(request)]: [null], or the object [{ email, password }]
    whose fields are the first two segments of the decoded token (a segment
    that does not exist is [undefined]). *)
Definition getBasicAuthToken (req : request) : option (option string * option string) :=
  match h_authorization req with
  | None => None
  | Some authHeader =>
      if falsy authHeader then None
      else
        match split " " authHeader !! 1%nat with
        | None => None
        | Some token =>
            if falsy token then None
            else
              let decodedToken := base64_decode token in
              let parts := split ":" decodedToken in
              Some (parts !! 0%nat, parts !! 1%nat)
        end
  end.

Definition getSessionToken (req : request) : option string :=
  match h_x_token req with
  | None => None
  | Some xHeader => if falsy xHeader then None else Some xHeader
  end.

(** [authenticateUser(email, password)]. *)
Definition authenticateUser (email password : string) (w : world) : option UserDoc :=
  match findUserByEmail email w with
  | None => None
  | Some user =>
      let hashedPassword := sha1 password in
      if negb (String.eqb (user_password user) hashedPassword) then None
      else Some user
  end.

(** [generateSessionToken(userId)].  [token] is the value [uuidv4()] draws;
    the id is sent to Redis as its string. *)
Definition generateSessionToken (token : string) (userId : ObjectId) (w : world)
  : string * world :=
  let key := "auth_" ++ token in
  (token, redisClient_set key (toHexString userId) (24 * 60 * 60) w).

(** [deleteSessionToken(token)]. *)
Definition deleteSessionToken (token : string) (w : world) : bool * world :=
  match redisClient_get ("auth_" ++ token) w with
  | None => (false, w)
  | Some userId =>
      if falsy userId then (false, w)
      else (true, snd (redisClient_del ("auth_" ++ token) w))
  end.

(** [getUserFromSession(token)]. *)
Definition getUserFromSession (token : string) (w : world) : result (option UserInfo) :=
  match redisClient_get ("auth_" ++ token) w with
  | None => mret None
  | Some userId =>
      if falsy userId then mret None
      else
        user ← findUserById userId w;
        match user with
        | None => mret None
        | Some user => mret (Some (mkUserInfo (user_email user) (user_id user)))
        end
  end.

(** [getCurrentUser(request)]. *)
Definition getCurrentUser (req : request) (w : world) : result (option UserInfo) :=
  match getSessionToken req with
  | None => mret None
  | Some token =>
      user ← getUserFromSession token w;
      match user with
      | None => mret None
      | Some user => mret (Some user)
      end
  end.

(* ================================================================== *)
(** ** controllers/AuthController.js *)
(* ================================================================== *)

Definition unauthorized : response := mkResponse 401 (BError "Unauthorized").

(** [getConnect].  The handler destructures what [getBasicAuthToken]
    returns; destructuring [null] throws a [TypeError]. *)
Definition getConnect (token : string) (req : request) (w : world)
  : result response * world :=
  match getBasicAuthToken req with
  | None => (Throw "TypeError", w)
  | Some (email, password) =>
      match email with
      | None => (Ret unauthorized, w)
      | Some email =>
          if falsy email || falsy_opt password then (Ret unauthorized, w)
          else
            match password with
            | None => (Ret unauthorized, w)
            | Some password =>
                match authenticateUser email password w with
                | None => (Ret unauthorized, w)
                | Some user =>
                    let '(t, w') := generateSessionToken token (user_id user) w in
                    (Ret (mkResponse 200 (BToken t)), w')
                end
            end
      end
  end.

Definition getDisconnect (req : request) (w : world) : result response * world :=
  match getSessionToken req with
  | None => (Ret unauthorized, w)
  | Some token =>
      let '(result, w') := deleteSessionToken token w in
      if negb result then (Ret unauthorized, w')
      else (Ret (mkResponse 204 BEmpty), w')
  end.

Definition getMe (req : request) (w : world) : result response * world :=
  match getCurrentUser req w with
  | Throw e => (Throw e, w)
  | Ret None => (Ret unauthorized, w)
  | Ret (Some currentUser) => (Ret (mkResponse 200 (BUser currentUser)), w)
  end.

(* ================================================================== *)
(** ** controllers/UsersController.js *)
(* ================================================================== *)

(** [postNew].  [newId] is the id Mongo gives the new document. *)
Definition postNew (newId : ObjectId) (req : request) (w : world)
  : result response * world :=
  match b_email req with
  | None => (Ret (mkResponse 400 (BError "Missing email")), w)
  | Some email =>
      if falsy email then (Ret (mkResponse 400 (BError "Missing email")), w)
      else
        match b_password req with
        | None => (Ret (mkResponse 400 (BError "Missing password")), w)
        | Some password =>
            if falsy password then (Ret (mkResponse 400 (BError "Missing password")), w)
            else
              match findUserByEmail email w with
              | Some existingUser => (Ret (mkResponse 400 (BError "Already exist")), w)
              | None =>
                  let '(newUser, w1) := addUser newId email password w in
                  let w2 := set_userQueue (userQueue w1 ++ [mkUserJob (info_id newUser)]) w1 in
                  (Ret (mkResponse 201 (BUser newUser)), w2)
              end
        end
  end.

End Model.

(* ================================================================== *)
(** ** The file module the controller imports *)
(* ================================================================== *)

(** The [parentId] handed to the listing: the number [0], or the query
    value as it came. *)
Inductive parentArg : Type :=
| ParentZero
| ParentQuery (v : qval).

(** What controllers/FilesController.js uses of [../utils/file], whose
    source is not at hand: the constant [FOLDER], [new File(...).save()] and
    the four queries of [FilesCollection].  They read and write the [files]
    collection and the disk; each of them may throw. *)
Class FilesModule : Type := {
  FOLDER : string;
  File_save :
    ObjectId -> option string -> option string -> option parentRef ->
    option bool -> option string ->
    list FileDoc -> gmap string (list byte) ->
    result FileDoc * list FileDoc * gmap string (list byte);
  findUserFileById :
    ObjectId -> string -> list FileDoc -> result (option FileDoc);
  findAllUserFilesByParentId :
    ObjectId -> parentArg -> float -> list FileDoc -> result (list FileDoc);
  updateFilePublication :
    ObjectId -> string -> bool -> list FileDoc ->
    result (option FileDoc) * list FileDoc;
  findPublicOrOwnFile :
    option ObjectId -> string -> list FileDoc -> result (option FileDoc)
}.

(* ================================================================== *)
(** ** controllers/FilesController.js *)
(* ================================================================== *)

Section Files.
Context {P : Platform} {F : FilesModule}.

Definition not_found : response := mkResponse 404 (BError "Not found").

Definition postUpload (req : request) (w : world) : result response * world :=
  match getCurrentUser req w with
  | Throw e => (Throw e, w)
  | Ret None => (Ret unauthorized, w)
  | Ret (Some currentUser) =>
      let '(saved, files', disk') :=
        File_save (info_id currentUser) (b_name req) (b_type req)
          (b_parentId req) (b_isPublic req) (b_data req) (files w) (disk w) in
      let w1 := set_disk disk' (set_files files' w) in
      match saved with
      | Ret savedFile =>
          let w2 :=
            if String.eqb (file_type savedFile) "image"
            then set_fileQueue
                   (fileQueue w1 ++ [mkFileJob (info_id currentUser) (file_id savedFile)]) w1
            else w1 in
          (Ret (mkResponse 201 (BFile savedFile)), w2)
      | Throw message => (Ret (mkResponse 400 (BError message)), w1)
      end
  end.

Definition getShow (req : request) (w : world) : result response * world :=
  match getCurrentUser req w with
  | Throw e => (Throw e, w)
  | Ret None => (Ret unauthorized, w)
  | Ret (Some currentUser) =>
      match findUserFileById (info_id currentUser) (param_id req) (files w) with
      | Throw e => (Throw e, w)
      | Ret None => (Ret not_found, w)
      | Ret (Some file) => (Ret (mkResponse 200 (BFile file)), w)
      end
  end.

(** [if (parentId === '0' || !parentId) parentId = 0]. *)
Definition index_parentId (parentId : option qval) : parentArg :=
  match parentId with
  | None => ParentZero
  | Some (QStr s) => if String.eqb s "0" || falsy s then ParentZero else ParentQuery (QStr s)
  | Some v => ParentQuery v
  end.

(** [page = Number.isNaN(page) ? 0 : Number(page)]. *)
Definition index_page (page : option qval) : float :=
  if Number_isNaN (of_query page) then 0%float else Number (of_query page).

Definition getIndex (req : request) (w : world) : result response * world :=
  match getCurrentUser req w with
  | Throw e => (Throw e, w)
  | Ret None => (Ret unauthorized, w)
  | Ret (Some currentUser) =>
      let parentId := index_parentId (q_parentId req) in
      let page := index_page (q_page req) in
      match findAllUserFilesByParentId (info_id currentUser) parentId page (files w) with
      | Throw e => (Throw e, w)
      | Ret files => (Ret (mkResponse 200 (BFiles files)), w)
      end
  end.

Definition updatePublication (req : request) (isPublished : bool) (w : world)
  : result response * world :=
  match getCurrentUser req w with
  | Throw e => (Throw e, w)
  | Ret None => (Ret unauthorized, w)
  | Ret (Some currentUser) =>
      let '(file, files') :=
        updateFilePublication (info_id currentUser) (param_id req) isPublished (files w) in
      let w1 := set_files files' w in
      match file with
      | Throw e => (Throw e, w1)
      | Ret None => (Ret not_found, w1)
      | Ret (Some file) => (Ret (mkResponse 200 (BFile file)), w1)
      end
  end.

Definition putPublish (req : request) (w : world) : result response * world :=
  updatePublication req true w.

Definition putUnpublish (req : request) (w : world) : result response * world :=
  updatePublication req false w.

(** The path [getFile] reads: the file's own, or the variant named after
    the [size] parameter as it was written in the query. *)
Definition served_path (file : FileDoc) (size : option qval) : string :=
  let filePath := file_localPath file in
  if negb (Number_isNaN (of_query size))
     && includes [500%float; 250%float; 100%float] (Number (of_query size))
  then filePath ++ "_" ++ template size
  else filePath.

Definition getFile (req : request) (w : world) : result response * world :=
  match getCurrentUser req w with
  | Throw e => (Throw e, w)
  | Ret currentUser =>
      let size := q_size req in
      match findPublicOrOwnFile (option_map info_id currentUser) (param_id req) (files w) with
      | Throw e => (Throw e, w)
      | Ret None => (Ret not_found, w)
      | Ret (Some file) =>
          if String.eqb (file_type file) FOLDER
          then (Ret (mkResponse 400 (BError "A folder doesn't have content")), w)
          else
            let filePath := served_path file size in
            match disk w !! filePath with
            | None => (Ret not_found, w)
            | Some data => (Ret (mkResponse 200 (BData (mime_lookup (file_name file)) data)), w)
            end
      end
  end.

End Files.

(* ================================================================== *)
(** ** controllers/AppController.js and the clients' own state *)
(* ================================================================== *)

(** [isConnected] of the Redis client and of the DB client.  The DB client
    sets its flag and its [db] handle together, in the callback of
    [connect]; until then [db] is [null]. *)
Record clients : Type := mkClients {
  redis_isConnected : bool;
  db_isConnected : bool
}.

Definition redisClient_isAlive (c : clients) : bool := redis_isConnected c.

Definition dbClient_isAlive (c : clients) : bool := db_isConnected c.

(** [nbUsers()]: [this.db.collection('users').countDocuments()]; reading
    [collection] of a [null] handle throws. *)
Definition nbUsers (c : clients) (w : world) : result nat :=
  if db_isConnected c then Ret (List.length (users w)) else Throw "TypeError".

(** [nbFiles()]. *)
Definition nbFiles (c : clients) (w : world) : result nat :=
  if db_isConnected c then Ret (List.length (files w)) else Throw "TypeError".

(** What the two handlers send, with the status code they set. *)
Inductive appBody : Type :=
| AStatus (redis db : bool)        (* send({ redis, db }) *)
| AStats (users files : nat).      (* send({ users, files }) *)

Definition getStatus (c : clients) : nat * appBody :=
  (200%nat, AStatus (redisClient_isAlive c) (dbClient_isAlive c)).

(** [getStats]: the two counts are awaited in turn, users first. *)
Definition getStats (c : clients) (w : world) : result (nat * appBody) :=
  users ← nbUsers c w;
  files ← nbFiles c w;
  mret (200%nat, AStats users files).

(* ================================================================== *)
(** ** The File Store of the specification *)
(* ================================================================== *)

Section FileStore.
Context {P : Platform}.

(** Modelled from the spec: a file "belongs to" the user whose id is its
    [userId] (section 3). *)
Definition owns (userId : ObjectId) (f : FileDoc) : bool :=
  bool_decide (file_userId f = userId).

(** Modelled from the spec: "the viewer owns it"; an anonymous viewer owns
    nothing. *)
Definition owned_by_viewer (viewer : option ObjectId) (f : FileDoc) : bool :=
  match viewer with
  | None => false
  | Some userId => owns userId f
  end.

(** Modelled from the spec: visibility is the one mutable field. *)
Definition set_isPublic (isPublic : bool) (f : FileDoc) : FileDoc :=
  mkFileDoc (file_id f) (file_userId f) (file_name f) (file_type f) isPublic
    (file_parentId f) (file_localPath f).

(** Modelled from the spec: "whose [parentId] matches": the root matches
    the number [0], a folder id matches the same string. *)
Definition parent_matches (p : parentRef) (a : parentArg) : bool :=
  match p, a with
  | ParentRoot, ParentZero => true
  | ParentId id, ParentQuery (QStr s) => String.eqb id s
  | _, _ => false
  end.

(** Modelled from the spec: the offset as a number of documents to pass
    over: the whole part of a non-negative number, [None] for infinity. *)
Definition whole_part (x : float) : option Z :=
  match Prim2SF x with
  | S754_finite false m e => Some (Z.shiftl (Z.pos m) e)
  | S754_infinity false => None
  | _ => Some 0
  end.

(** Modelled from the spec: "using offset"; past the last document the
    sequence is empty. *)
Definition skip {A : Type} (offset : float) (l : list A) : list A :=
  match whole_part offset with
  | Some n => if Z.of_nat (List.length l) <=? n then [] else drop (Z.to_nat n) l
  | None => []
  end.

(** Modelled from the spec: [getOwned(userId, fileId)] of the File Store
    (section 4.3), for [FilesCollection.findUserFileById], which is not among
    the sources: the file only if it belongs to [userId], otherwise not
    found. *)
Definition getOwned (userId : ObjectId) (fileId : string) (fs : list FileDoc)
  : option FileDoc :=
  List.find (fun f => String.eqb (file_id f) fileId && owns userId f) fs.

(** Modelled from the spec: "fixed page size 20" (sections 4.3 and 6). *)
Definition pageSize : float := 20%float.

(** Modelled from the spec: "[page < 0] or non-numeric is treated as [0]"
    (section 4.3). *)
Definition effective_page (page : float) : float :=
  if PrimFloat.is_nan page || PrimFloat.ltb page 0%float then 0%float else page.

(** Modelled from the spec: [listChildren(userId, parentId, page,
    pageSize = 20)] (section 4.3), for
    [FilesCollection.findAllUserFilesByParentId], which is not among the
    sources: the entities owned by [userId] whose [parentId] matches, in
    insertion order, from offset [page * pageSize]. *)
Definition listChildren (userId : ObjectId) (parentId : parentArg) (page : float)
  (fs : list FileDoc) : list FileDoc :=
  let offset := PrimFloat.mul (effective_page page) pageSize in
  take 20 (skip offset
    (List.filter (fun f => owns userId f && parent_matches (file_parentId f) parentId) fs)).

(** Modelled from the spec: [setPublication(userId, fileId, isPublic)]
    (section 4.3), for [FilesCollection.updateFilePublication], which is not
    among the sources: updates visibility only if the caller owns the file and
    returns the updated record, not found otherwise. *)
Fixpoint setPublication (userId : ObjectId) (fileId : string) (isPublic : bool)
  (fs : list FileDoc) : option FileDoc * list FileDoc :=
  match fs with
  | [] => (None, [])
  | f :: tl =>
      if String.eqb (file_id f) fileId && owns userId f
      then (Some (set_isPublic isPublic f), set_isPublic isPublic f :: tl)
      else let '(r, tl') := setPublication userId fileId isPublic tl in (r, f :: tl')
  end.

(** Modelled from the spec: [resolveForServing(viewerUserIdOrNone, fileId)]
    (section 4.3), for [FilesCollection.findPublicOrOwnFile], which is not
    among the sources: the file if it is public or the viewer owns it. *)
Definition resolveForServing (viewer : option ObjectId) (fileId : string)
  (fs : list FileDoc) : option FileDoc :=
  List.find
    (fun f => String.eqb (file_id f) fileId && (file_isPublic f || owned_by_viewer viewer f))
    fs.

(** Modelled from the spec: [kind] is one of folder, file and image
    (section 3). *)
Definition valid_kind (t : string) : bool :=
  String.eqb t "folder" || String.eqb t "file" || String.eqb t "image".

(** Modelled from the spec: a parent other than the root must exist and be
    a folder (section 4.3). *)
Definition parent_ok (parentId : option parentRef) (fs : list FileDoc) : bool :=
  match parentId with
  | None | Some ParentRoot => true
  | Some (ParentId p) =>
      match List.find (fun f => String.eqb (file_id f) p) fs with
      | Some parent => String.eqb (file_type parent) "folder"
      | None => false
      end
  end.

(** Modelled from the spec: [create(owner, name, kind, parentId, isPublic,
    contentBytes)] (section 4.3), for [new File(...).save()], which is not
    among the sources: [name] and [kind] must be present and valid and the
    parent acceptable; the bytes of a non-folder are written under a fresh
    path before the document is inserted.  [newId] and [newPath] are the
    generated id and path; a failure is a [ValidationError]. *)
Definition create (newId newPath : string) (owner : ObjectId)
  (name kind : option string) (parentId : option parentRef)
  (isPublic : option bool) (data : option string)
  (fs : list FileDoc) (dsk : gmap string (list byte))
  : result FileDoc * list FileDoc * gmap string (list byte) :=
  match name, kind with
  | Some name, Some kind =>
      if falsy name || negb (valid_kind kind) || negb (parent_ok parentId fs)
      then (Throw "ValidationError", fs, dsk)
      else
        let parent := default ParentRoot parentId in
        let public := default false isPublic in
        if String.eqb kind "folder" then
          let doc := mkFileDoc newId owner name kind public parent "" in
          (Ret doc, (fs ++ [doc])%list, dsk)
        else
          let bytes := list_byte_of_string (base64_decode (default "" data)) in
          let doc := mkFileDoc newId owner name kind public parent newPath in
          (Ret doc, (fs ++ [doc])%list, <[newPath := bytes]> dsk)
  | _, _ => (Throw "ValidationError", fs, dsk)
  end.

(** Modelled from the spec: the file module as section 4.3 describes it,
    with [FOLDER] the kind "folder" of section 3. *)
Definition specFiles (newId newPath : string) : FilesModule := {|
  FOLDER := "folder";
  File_save := create newId newPath;
  findUserFileById := fun userId id fs => Ret (getOwned userId id fs);
  findAllUserFilesByParentId := fun userId parentId page fs =>
    Ret (listChildren userId parentId page fs);
  updateFilePublication := fun userId id isPublic fs =>
    let '(r, fs') := setPublication userId id isPublic fs in (Ret r, fs');
  findPublicOrOwnFile := fun viewer id fs => Ret (resolveForServing viewer id fs)
|}.

End FileStore.

(* ================================================================== *)
(** ** A platform and a state for the examples *)
(* ================================================================== *)

(** Decimal digits to a number; [None] when a character is not a digit. *)
Fixpoint digits_value (s : string) (acc : Z) : option Z :=
  match s with
  | EmptyString => Some acc
  | String c rest =>
      let n := Z.of_N (N_of_ascii c) in
      if (48 <=? n) && (n <=? 57) then digits_value rest (10 * acc + (n - 48))
      else None
  end.

(** [StringToNumber] on the strings of the examples: the empty string is
    [0], a string of at most fifteen decimal digits with an optional sign is
    that integer, and the other strings used below (words) are not
    numbers. *)
Definition example_StringToNumber (s : string) : float :=
  let unsigned (d : string) : float :=
    match d with
    | EmptyString => PrimFloat.nan
    | _ =>
        if Nat.leb (String.length d) 15 then
          match digits_value d 0 with
          | Some z => PrimFloat.of_uint63 (Uint63.of_Z z)
          | None => PrimFloat.nan
          end
        else PrimFloat.nan
    end in
  match s with
  | EmptyString => 0%float
  | String "-" d => PrimFloat.opp (unsigned d)
  | String "+" d => unsigned d
  | _ => unsigned s
  end.

(** A stand-in for SHA-1 that never maps two strings to one. *)
Definition example_sha1 (s : string) : string := "sha1(" ++ s ++ ")".

(** Base64 decoding of the standard alphabet, stopping at the padding. *)
Definition base64_value (c : ascii) : option N :=
  let n := N_of_ascii c in
  if (65 <=? n)%N && (n <=? 90)%N then Some (n - 65)%N
  else if (97 <=? n)%N && (n <=? 122)%N then Some (n - 71)%N
  else if (48 <=? n)%N && (n <=? 57)%N then Some (n + 4)%N
  else if (n =? 43)%N then Some 62%N
  else if (n =? 47)%N then Some 63%N
  else None.

Fixpoint base64_sextets (s : string) : list N :=
  match s with
  | EmptyString => []
  | String c rest =>
      match base64_value c with
      | Some v => v :: base64_sextets rest
      | None => []
      end
  end.

Fixpoint base64_bytes (fuel : nat) (l : list N) : string :=
  match fuel with
  | O => ""
  | S fuel =>
      match l with
      | a :: b :: c :: d :: tl =>
          String (ascii_of_N (a * 4 + b / 16))
            (String (ascii_of_N ((b mod 16) * 16 + c / 4))
               (String (ascii_of_N ((c mod 4) * 64 + d)) (base64_bytes fuel tl)))
      | [a; b; c] =>
          String (ascii_of_N (a * 4 + b / 16))
            (String (ascii_of_N ((b mod 16) * 16 + c / 4)) "")
      | [a; b] => String (ascii_of_N (a * 4 + b / 16)) ""
      | _ => ""
      end
  end.

Definition example_base64_decode (s : string) : string :=
  let l := base64_sextets s in base64_bytes (List.length l) l.

Definition example_mime_lookup (name : string) : option string :=
  if String.eqb name "photo.png" then Some "image/png"
  else if String.eqb name "notes.txt" then Some "text/plain"
  else None.

Definition examplePlatform : Platform := {|
  StringToNumber := example_StringToNumber;
  sha1 := example_sha1;
  base64_decode := example_base64_decode;
  mime_lookup := example_mime_lookup
|}.

Definition emptyWorld : world := mkWorld ∅ 0 [] [] ∅ [] [].

Definition emptyRequest : request :=
  mkRequest None None "" None None None None None None None None None None.

(** Requests are built field by field from the empty one. *)
Definition set_h_authorization (v : option string) (req : request) : request :=
  mkRequest v (h_x_token req) (param_id req) (q_size req) (q_page req)
    (q_parentId req) (b_email req) (b_password req) (b_name req) (b_type req)
    (b_parentId req) (b_isPublic req) (b_data req).
Definition set_h_x_token (v : option string) (req : request) : request :=
  mkRequest (h_authorization req) v (param_id req) (q_size req) (q_page req)
    (q_parentId req) (b_email req) (b_password req) (b_name req) (b_type req)
    (b_parentId req) (b_isPublic req) (b_data req).
Definition set_param_id (v : string) (req : request) : request :=
  mkRequest (h_authorization req) (h_x_token req) v (q_size req) (q_page req)
    (q_parentId req) (b_email req) (b_password req) (b_name req) (b_type req)
    (b_parentId req) (b_isPublic req) (b_data req).
Definition set_q_size (v : option qval) (req : request) : request :=
  mkRequest (h_authorization req) (h_x_token req) (param_id req) v (q_page req)
    (q_parentId req) (b_email req) (b_password req) (b_name req) (b_type req)
    (b_parentId req) (b_isPublic req) (b_data req).
Definition set_q_page (v : option qval) (req : request) : request :=
  mkRequest (h_authorization req) (h_x_token req) (param_id req) (q_size req) v
    (q_parentId req) (b_email req) (b_password req) (b_name req) (b_type req)
    (b_parentId req) (b_isPublic req) (b_data req).
Definition set_credentials (email password : option string) (req : request) : request :=
  mkRequest (h_authorization req) (h_x_token req) (param_id req) (q_size req)
    (q_page req) (q_parentId req) email password (b_name req) (b_type req)
    (b_parentId req) (b_isPublic req) (b_data req).
Definition set_upload (name type : option string) (data : option string)
  (req : request) : request :=
  mkRequest (h_authorization req) (h_x_token req) (param_id req) (q_size req)
    (q_page req) (q_parentId req) (b_email req) (b_password req) name type
    (b_parentId req) (b_isPublic req) data.

(** Two users.  Bob registers, opens a session and uploads an image and a
    text file; Alice registers and opens a session. *)
Definition bob_id : ObjectId := mkObjectId (list_byte_of_string "bob-00000001").
Definition alice_id : ObjectId := mkObjectId (list_byte_of_string "alice-000001").
Definition bob_token : string := "031bffac-3edc-4e51-aaae-1c121317da8a".
Definition alice_token : string := "f21fb953-16f9-46ed-8d9c-84c6450ec80f".

Definition bob_register : request :=
  set_credentials (Some "bob@dylan.com") (Some "toto1234!") emptyRequest.
(** [Basic base64("bob@dylan.com:toto1234!")]. *)
Definition bob_connect : request :=
  set_h_authorization (Some "Basic Ym9iQGR5bGFuLmNvbTp0b3RvMTIzNCE=") emptyRequest.
Definition alice_register : request :=
  set_credentials (Some "alice@dylan.com") (Some "wonderland") emptyRequest.
(** [Basic base64("alice@dylan.com:wonderland")]. *)
Definition alice_connect : request :=
  set_h_authorization (Some "Basic YWxpY2VAZHlsYW4uY29tOndvbmRlcmxhbmQ=") emptyRequest.

Definition as_bob : request := set_h_x_token (Some bob_token) emptyRequest.
Definition as_alice : request := set_h_x_token (Some alice_token) emptyRequest.

Definition upload_image : request :=
  set_upload (Some "photo.png") (Some "image") (Some "aGVsbG8=") as_bob.
Definition upload_text : request :=
  set_upload (Some "notes.txt") (Some "file") (Some "aGVsbG8=") as_bob.
Definition upload_nameless : request :=
  set_upload None (Some "image") (Some "aGVsbG8=") as_bob.

Definition files_image : FilesModule :=
  @specFiles examplePlatform "5f1e8896c7ba06511e683b25" "/tmp/files_manager/2a1f4fc3".
Definition files_text : FilesModule :=
  @specFiles examplePlatform "5f1e8896c7ba06511e683b26" "/tmp/files_manager/51997b88".

Definition world_registered : world :=
  snd (@postNew examplePlatform alice_id alice_register
         (snd (@postNew examplePlatform bob_id bob_register emptyWorld))).
Definition world_connected : world :=
  snd (@getConnect examplePlatform alice_token alice_connect
         (snd (@getConnect examplePlatform bob_token bob_connect world_registered))).
Definition world_uploaded : world :=
  snd (@postUpload files_text upload_text
         (snd (@postUpload files_image upload_image world_connected))).

(* ================================================================== *)
(** ** Invariants and predicates of the statements *)
(* ================================================================== *)

(** The values of the cache are truthy.  The only writer is
    [generateSessionToken], which stores the 24 digits of an object id. *)
Definition truthy_values (w : world) : Prop :=
  forall key value expires,
    redis w !! key = Some (value, expires) -> falsy value = false.

(** The documents registered under an email. *)
Definition registrations (email : string) (w : world) : list UserDoc :=
  List.filter (fun u => String.eqb (user_email u) email) (users w).

(** File ids are keys of the collection. *)
Definition unique_ids (fs : list FileDoc) : Prop := NoDup (List.map file_id fs).

(** Setting the [parentId] of the query. *)
Definition set_q_parentId (v : option qval) (req : request) : request :=
  mkRequest (h_authorization req) (h_x_token req) (param_id req) (q_size req)
    (q_page req) v (b_email req) (b_password req) (b_name req) (b_type req)
    (b_parentId req) (b_isPublic req) (b_data req).

(** The [parentId] values that [getIndex] takes for the root. *)
Definition root_parent (v : option qval) : Prop :=
  v = None \/ v = Some (QStr "") \/ v = Some (QStr "0").

(** Every user id is twelve bytes, and every value of the cache is the
    string of such an id. *)
Definition well_formed (w : world) : Prop :=
  (forall u, In u (users w) -> wf_oid (user_id u))
  /\ (forall key value expires,
        redis w !! key = Some (value, expires) ->
        exists o, wf_oid o /\ value = toHexString o).


(** More requests and states for the examples: both clients connected; Bob's
    credentials without a colon ([Basic base64("bob@dylan.com")]); Carol, who
    registers the password "pa:ss" and sends it as it is. *)
Definition example_clients : clients := mkClients true true.

Definition bob_without_password : request :=
  set_h_authorization (Some "Basic Ym9iQGR5bGFuLmNvbQ==") emptyRequest.

Definition carol_id : ObjectId := mkObjectId (list_byte_of_string "carol-000001").
Definition carol_register : request :=
  set_credentials (Some "carol@dylan.com") (Some "pa:ss") emptyRequest.
Definition carol_connect : request :=
  set_h_authorization (Some "Basic Y2Fyb2xAZHlsYW4uY29tOnBhOnNz") emptyRequest.
Definition world_carol : world :=
  snd (@postNew examplePlatform carol_id carol_register emptyWorld).

(* ================================================================== *)
(** ** The awaits of [postNew], and the lookups with the database handle *)
(* ================================================================== *)

Section Awaits.
Context {P : Platform}.

(** [postNew] up to and including [await dbClient.findUserByEmail(email)]:
    a response, or the email and password that go on to the insert.  Other
    requests may be served between this await and the next. *)
Definition postNew_check (req : request) (w : world) : response + string * string :=
  match b_email req with
  | None => inl (mkResponse 400 (BError "Missing email"))
  | Some email =>
      if falsy email then inl (mkResponse 400 (BError "Missing email"))
      else
        match b_password req with
        | None => inl (mkResponse 400 (BError "Missing password"))
        | Some password =>
            if falsy password then inl (mkResponse 400 (BError "Missing password"))
            else
              match findUserByEmail email w with
              | Some existingUser => inl (mkResponse 400 (BError "Already exist"))
              | None => inr (email, password)
              end
        end
  end.

(** [postNew] from [await dbClient.addUser(email, password)] on. *)
Definition postNew_insert (newId : ObjectId) (email password : string) (w : world)
  : result response * world :=
  let '(newUser, w1) := addUser newId email password w in
  let w2 := set_userQueue (userQueue w1 ++ [mkUserJob (info_id newUser)]) w1 in
  (Ret (mkResponse 201 (BUser newUser)), w2).

End Awaits.

(** [findUserById] with the state of the client: [this.db] is [null] until
    the connection is made, and [this.db.collection] then throws before the
    id is converted. *)
Definition findUserById_on (c : clients) (userId : string) (w : world)
  : result (option UserDoc) :=
  if db_isConnected c then findUserById userId w else Throw "TypeError".

(** [getUserFromSession], [getCurrentUser] and [getMe] over it. *)
Definition getUserFromSession_on (c : clients) (token : string) (w : world)
  : result (option UserInfo) :=
  match redisClient_get ("auth_" ++ token) w with
  | None => mret None
  | Some userId =>
      if falsy userId then mret None
      else
        user ← findUserById_on c userId w;
        match user with
        | None => mret None
        | Some user => mret (Some (mkUserInfo (user_email user) (user_id user)))
        end
  end.

Definition getCurrentUser_on (c : clients) (req : request) (w : world)
  : result (option UserInfo) :=
  match getSessionToken req with
  | None => mret None
  | Some token =>
      user ← getUserFromSession_on c token w;
      match user with
      | None => mret None
      | Some user => mret (Some user)
      end
  end.

Definition getMe_on (c : clients) (req : request) (w : world)
  : result response * world :=
  match getCurrentUser_on c req w with
  | Throw e => (Throw e, w)
  | Ret None => (Ret unauthorized, w)
  | Ret (Some currentUser) => (Ret (mkResponse 200 (BUser currentUser)), w)
  end.

(* ================================================================== *)
(** ** Object ids and their strings *)
(* ================================================================== *)

Lemma hex_value_digit (n : N) : (n < 16)%N -> hex_value (hex_digit n) = Some n.
Proof.
  intros Hn.
  assert (Hcases : In n (List.map N.of_nat (seq 0 16))).
  { apply in_map_iff. exists (N.to_nat n). split; [lia|]. apply in_seq. lia. }
  simpl in Hcases.
  repeat (destruct Hcases as [<- | Hcases]; [reflexivity|]).
  destruct Hcases.
Qed.

Lemma bytes_of_hex_of_byte (b : byte) (tail : string) :
  bytes_of_hex (hex_of_byte b tail) =
  match bytes_of_hex tail with Some tl => Some (b :: tl) | None => None end.
Proof.
  unfold hex_of_byte.
  pose proof (Byte.to_N_bounded b) as Hb.
  set (n := Byte.to_N b) in *.
  cbn [bytes_of_hex].
  rewrite !hex_value_digit.
  - destruct (bytes_of_hex tail); [|reflexivity].
    replace (16 * (n / 16) + n mod 16)%N with n by (rewrite <- N.div_mod; lia).
    subst n. now rewrite Byte.of_to_N.
  - apply N.mod_lt. lia.
  - apply N.Div0.div_lt_upper_bound. lia.
Qed.

Lemma bytes_of_hex_of_bytes (l : list byte) : bytes_of_hex (hex_of_bytes l) = Some l.
Proof.
  induction l as [|b l IH]; [reflexivity|].
  cbn [hex_of_bytes]. now rewrite bytes_of_hex_of_byte, IH.
Qed.

Lemma length_hex_of_bytes (l : list byte) :
  String.length (hex_of_bytes l) = (2 * List.length l)%nat.
Proof.
  induction l as [|b l IH]; [reflexivity|].
  cbn [hex_of_bytes hex_of_byte String.length List.length]. lia.
Qed.

Lemma ObjectId_toHexString (o : ObjectId) :
  wf_oid o -> ObjectId_of_string (toHexString o) = Ret o.
Proof.
  intros Hwf. unfold ObjectId_of_string, toHexString.
  rewrite length_hex_of_bytes, Hwf. cbn [Nat.eqb Nat.mul Nat.add].
  rewrite bytes_of_hex_of_bytes. now destruct o.
Qed.

Lemma truthy_toHexString (o : ObjectId) : wf_oid o -> falsy (toHexString o) = false.
Proof.
  unfold wf_oid, toHexString. destruct o as [[|b l]]; [discriminate|reflexivity].
Qed.

(* ================================================================== *)
(** ** Sessions *)
(* ================================================================== *)

Lemma truthy_values_empty : truthy_values emptyWorld.
Proof. intros key value expires H. cbn in H. now rewrite lookup_empty in H. Qed.

Lemma truthy_values_generate token userId w :
  wf_oid userId -> truthy_values w ->
  truthy_values (snd (generateSessionToken token userId w)).
Proof.
  intros Hwf Hw key value expires.
  unfold generateSessionToken, redisClient_set, set_redis. cbn [snd redis].
  rewrite lookup_insert. case_decide as Hk.
  - intros [= <- _]. now apply truthy_toHexString.
  - apply Hw.
Qed.

Lemma truthy_values_delete token w :
  truthy_values w -> truthy_values (snd (deleteSessionToken token w)).
Proof.
  intros Hw. unfold deleteSessionToken.
  destruct (redisClient_get _ w) as [v|] eqn:Hg; [|exact Hw].
  destruct (falsy v); [exact Hw|].
  unfold redisClient_del. rewrite Hg.
  intros key value expires. unfold set_redis. cbn [snd redis].
  rewrite lookup_delete. case_decide; [discriminate|apply Hw].
Qed.

Lemma redisClient_get_set key value expiry w :
  0 < expiry -> redisClient_get key (redisClient_set key value expiry w) = Some value.
Proof.
  intros He. unfold redisClient_get, redisClient_set, set_redis. cbn [redis clock].
  rewrite lookup_insert_eq.
  destruct (Z.ltb_spec (clock w) (clock w + expiry)); [reflexivity|lia].
Qed.

Lemma redisClient_get_del key w :
  redisClient_get key (snd (redisClient_del key w)) = None.
Proof.
  unfold redisClient_del.
  destruct (redisClient_get key w); unfold redisClient_get, set_redis;
    cbn [snd redis]; now rewrite lookup_delete_eq.
Qed.

(** A session lives 24 hours: the key answers until [24 * 60 * 60] seconds
    have passed, and not after. *)
Lemma session_expiry token userId w t :
  let w1 := snd (generateSessionToken token userId w) in
  (clock w <= t < clock w + 86400 ->
   redisClient_get ("auth_" ++ token) (set_clock t w1) = Some (toHexString userId))
  /\ (clock w + 86400 <= t ->
      redisClient_get ("auth_" ++ token) (set_clock t w1) = None).
Proof.
  unfold generateSessionToken, redisClient_set, redisClient_get, set_redis, set_clock.
  cbn [snd redis clock]. rewrite lookup_insert_eq.
  split; intros H; destruct (Z.ltb_spec t (clock w + 24 * 60 * 60)); (reflexivity || lia).
Qed.

Lemma find_user_id userId (l : list UserDoc) user :
  In user l -> user_id user = userId ->
  exists found, List.find (fun u => bool_decide (user_id u = userId)) l = Some found
                /\ user_id found = userId.
Proof.
  intros Hin Hid.
  destruct (List.find _ l) as [found|] eqn:Hf.
  - exists found. split; [reflexivity|].
    apply find_some in Hf as [_ Hf]. now apply bool_decide_eq_true in Hf.
  - apply (find_none _ _ Hf) in Hin. cbn in Hin.
    apply bool_decide_eq_false in Hin. contradiction.
Qed.

(** C3.  Issuing a session token for a user id and resolving it at once
    gives back that id: the cache holds the id under the token's key, and
    [getUserFromSession] returns the identity of the user with that id.
    After the token is revoked it resolves to nothing, and revoking it a
    second time returns false and changes nothing.  On a cache whose values
    are non-empty (every value this code writes is), revoking returns true
    exactly when the key is there. *)
Theorem session_issue_resolve_revoke
  (token other : string) (userId : ObjectId) (w : world) :
  wf_oid userId ->
  truthy_values w ->
  let w1 := snd (generateSessionToken token userId w) in
  let w2 := snd (deleteSessionToken token w1) in
  fst (generateSessionToken token userId w) = token
  /\ redisClient_get ("auth_" ++ token) w1 = Some (toHexString userId)
  /\ (forall user, In user (users w) -> user_id user = userId ->
        exists email,
          getUserFromSession token w1 = Ret (Some (mkUserInfo email userId)))
  /\ fst (deleteSessionToken token w1) = true
  /\ redisClient_get ("auth_" ++ token) w2 = None
  /\ getUserFromSession token w2 = Ret None
  /\ deleteSessionToken token w2 = (false, w2)
  /\ (fst (deleteSessionToken other w) = true
      <-> is_Some (redisClient_get ("auth_" ++ other) w)).
Proof.
  intros Hwf Hw w1 w2.
  assert (Hget : redisClient_get ("auth_" ++ token) w1 = Some (toHexString userId)).
  { subst w1. unfold generateSessionToken. cbn [snd].
    apply redisClient_get_set. lia. }
  assert (Hdel : deleteSessionToken token w1
                 = (true, snd (redisClient_del ("auth_" ++ token) w1))).
  { unfold deleteSessionToken. now rewrite Hget, truthy_toHexString. }
  assert (Hgone : redisClient_get ("auth_" ++ token) w2 = None).
  { subst w2. rewrite Hdel. cbn [snd]. apply redisClient_get_del. }
  repeat split.
  - exact Hget.
  - intros user Hin Hid.
    destruct (find_user_id userId (users w) user Hin Hid) as (found & Hf & Hfid).
    exists (user_email found).
    unfold getUserFromSession. rewrite Hget, truthy_toHexString by exact Hwf.
    unfold findUserById. rewrite ObjectId_toHexString by exact Hwf.
    cbn. rewrite Hf. now rewrite Hfid.
  - now rewrite Hdel.
  - exact Hgone.
  - unfold getUserFromSession. now rewrite Hgone.
  - unfold deleteSessionToken. now rewrite Hgone.
  - unfold deleteSessionToken.
    destruct (redisClient_get _ w) as [v|] eqn:Hv; [|discriminate].
    intros _. now eexists.
  - intros [v Hv]. unfold deleteSessionToken. rewrite Hv.
    assert (Hf : falsy v = false).
    { unfold redisClient_get in Hv.
      destruct (redis w !! _) as [[v' e]|] eqn:Hl; [|discriminate].
      destruct (clock w <? e); [|discriminate].
      injection Hv as <-. eapply Hw, Hl. }
    now rewrite Hf.
Qed.

(* ================================================================== *)
(** ** Credentials and registration *)
(* ================================================================== *)

Section Credentials.
Context {P : Platform}.

Lemma find_filter_head {A : Type} (f : A -> bool) (l : list A) :
  List.find f l = head (List.filter f l).
Proof.
  induction l as [|a l IH]; [reflexivity|].
  cbn [List.find List.filter]. now destruct (f a).
Qed.

Lemma findUserByEmail_registrations email w :
  findUserByEmail email w = head (registrations email w).
Proof. apply find_filter_head. Qed.

Lemma getConnect_rejects token req w email password :
  getBasicAuthToken req = Some (Some email, Some password) ->
  authenticateUser email password w = None ->
  getConnect token req w = (Ret unauthorized, w).
Proof.
  intros Hc Ha. unfold getConnect. rewrite Hc.
  destruct (falsy email || falsy_opt (Some password)); [reflexivity|].
  now rewrite Ha.
Qed.

(** C4.  When exactly one document is registered under an email, with the
    hash of a password, [authenticateUser] returns that document for the
    pair and returns [null] for every password whose hash differs; an unknown
    email gives [null] as well, and [getConnect] answers the two failures
    with one and the same 401 "Unauthorized", the state untouched. *)
Theorem authenticate_registered_once (email password : string) (user : UserDoc) (w : world) :
  registrations email w = [user] ->
  user_password user = sha1 password ->
  authenticateUser email password w = Some user
  /\ (forall p, sha1 p <> sha1 password -> authenticateUser email p w = None)
  /\ (forall e p, registrations e w = [] -> authenticateUser e p w = None)
  /\ (forall token req1 req2 p e' p',
        getBasicAuthToken req1 = Some (Some email, Some p) ->
        sha1 p <> sha1 password ->
        getBasicAuthToken req2 = Some (Some e', Some p') ->
        registrations e' w = [] ->
        getConnect token req1 w = (Ret unauthorized, w)
        /\ getConnect token req2 w = getConnect token req1 w).
Proof.
  intros Hreg Hpw.
  assert (Hfind : findUserByEmail email w = Some user)
    by now rewrite findUserByEmail_registrations, Hreg.
  assert (Hwrong : forall p, sha1 p <> sha1 password -> authenticateUser email p w = None).
  { intros p Hp. unfold authenticateUser. rewrite Hfind, Hpw.
    destruct (String.eqb_spec (sha1 password) (sha1 p)) as [Heq|]; [|reflexivity].
    now symmetry in Heq. }
  assert (Hunknown : forall e p, registrations e w = [] -> authenticateUser e p w = None).
  { intros e p He. unfold authenticateUser.
    now rewrite findUserByEmail_registrations, He. }
  repeat split.
  - unfold authenticateUser. rewrite Hfind, Hpw. now rewrite String.eqb_refl.
  - exact Hwrong.
  - exact Hunknown.
  - eapply getConnect_rejects; eauto.
  - rewrite (getConnect_rejects token req1 w email p) by auto.
    eapply getConnect_rejects; eauto.
Qed.

Lemma registrations_addUser newId email password w :
  registrations email w = [] ->
  registrations email (snd (addUser newId email password w))
  = [mkUserDoc newId email (sha1 password)].
Proof.
  intros Hreg. unfold registrations, addUser, set_users. cbn [snd users].
  rewrite List.filter_app. unfold registrations in Hreg. rewrite Hreg.
  cbn. now rewrite String.eqb_refl.
Qed.

(** C8.  After a first registration of an email, a second one with that
    email is answered 400 "Already exist" and changes nothing: the first
    document is still the one found.  A missing email is answered "Missing
    email" whatever the password, and a missing password "Missing password"
    whether or not the email is registered; the duplicate check comes last. *)
Theorem postNew_duplicate_email
  (id1 id2 : ObjectId) (req1 req2 : request) (email pw1 pw2 : string) (w : world) :
  b_email req1 = Some email -> b_password req1 = Some pw1 ->
  b_email req2 = Some email -> b_password req2 = Some pw2 ->
  falsy email = false -> falsy pw1 = false -> falsy pw2 = false ->
  findUserByEmail email w = None ->
  let first := postNew id1 req1 w in
  let second := postNew id2 req2 (snd first) in
  fst first = Ret (mkResponse 201 (BUser (mkUserInfo email id1)))
  /\ second = (Ret (mkResponse 400 (BError "Already exist")), snd first)
  /\ findUserByEmail email (snd second) = Some (mkUserDoc id1 email (sha1 pw1))
  /\ (forall id req w', falsy_opt (b_email req) = true ->
        postNew id req w' = (Ret (mkResponse 400 (BError "Missing email")), w'))
  /\ (forall id req w', falsy_opt (b_email req) = false ->
        falsy_opt (b_password req) = true ->
        postNew id req w' = (Ret (mkResponse 400 (BError "Missing password")), w'))
  /\ (forall id req w' e, b_email req = Some e -> falsy e = false ->
        falsy_opt (b_password req) = false ->
        is_Some (findUserByEmail e w') ->
        postNew id req w' = (Ret (mkResponse 400 (BError "Already exist")), w')).
Proof.
  intros He1 Hp1 He2 Hp2 Hte Htp1 Htp2 Hfresh first second.
  assert (Hfirst : first = (Ret (mkResponse 201 (BUser (mkUserInfo email id1))),
                            set_userQueue (userQueue w ++ [mkUserJob id1])
                              (set_users (users w ++ [mkUserDoc id1 email (sha1 pw1)]) w))).
  { subst first. unfold postNew. rewrite He1, Hte, Hp1, Htp1, Hfresh. reflexivity. }
  assert (Hfound : findUserByEmail email (snd first)
                   = Some (mkUserDoc id1 email (sha1 pw1))).
  { rewrite Hfirst. cbn [snd]. rewrite !findUserByEmail_registrations in *.
    unfold registrations in *. cbn [users set_userQueue set_users].
    rewrite List.filter_app.
    destruct (List.filter _ (users w)); [|discriminate].
    cbn. now rewrite String.eqb_refl. }
  assert (Hsecond : second = (Ret (mkResponse 400 (BError "Already exist")), snd first)).
  { subst second. unfold postNew at 1. now rewrite He2, Hte, Hp2, Htp2, Hfound. }
  repeat split.
  - now rewrite Hfirst.
  - exact Hsecond.
  - now rewrite Hsecond.
  - intros id req w' H. unfold postNew.
    destruct (b_email req) as [e|]; [|reflexivity]. cbn in H. now rewrite H.
  - intros id req w' H1 H2. unfold postNew.
    destruct (b_email req) as [e|]; [|discriminate]. cbn in H1. rewrite H1.
    destruct (b_password req) as [p|]; [|reflexivity]. cbn in H2. now rewrite H2.
  - intros id req w' e H1 H2 H3 [u Hu]. unfold postNew. rewrite H1, H2.
    destruct (b_password req) as [p|]; [|discriminate]. cbn in H3. now rewrite H3, Hu.
Qed.

End Credentials.

(* ================================================================== *)
(** ** The controller, for any file module *)
(* ================================================================== *)

Section Controller.
Context {P : Platform} {F : FilesModule}.

Lemma Number_isNaN_query (v : option qval) : Number_isNaN (of_query v) = false.
Proof. now destruct v. Qed.

Lemma index_page_Number (page : option qval) : index_page page = Number (of_query page).
Proof. unfold index_page. now rewrite Number_isNaN_query. Qed.

(** The test of [getIndex] never replaces the page: a page that is not a
    number reaches the listing as NaN. *)
Remark index_page_forwards_nan (page : option qval) :
  Number (of_query page) = PrimFloat.nan -> index_page page = PrimFloat.nan.
Proof. intros H. now rewrite index_page_Number. Qed.

Lemma served_path_includes (file : FileDoc) (size : option qval) :
  served_path file size =
  if includes [500%float; 250%float; 100%float] (Number (of_query size))
  then file_localPath file ++ "_" ++ template size
  else file_localPath file.
Proof. unfold served_path. now rewrite Number_isNaN_query. Qed.

(** Without a session the four handlers that require one answer 401. *)
Lemma anonymous_unauthorized (req : request) (w : world) :
  getCurrentUser req w = Ret None ->
  postUpload req w = (Ret unauthorized, w)
  /\ getShow req w = (Ret unauthorized, w)
  /\ getIndex req w = (Ret unauthorized, w)
  /\ (forall isPublished, updatePublication req isPublished w = (Ret unauthorized, w)).
Proof.
  intros H. unfold postUpload, getShow, getIndex, updatePublication.
  now rewrite H.
Qed.

(** A number that compares equal to a finite non-zero number is that number. *)
Lemma eqb_finite_eq (x y : float) (s : bool) (m : positive) (e : Z) :
  Prim2SF y = S754_finite s m e -> PrimFloat.eqb x y = true -> x = y.
Proof.
  intros Hy. rewrite FloatAxioms.eqb_spec, Hy. intros H.
  apply FloatAxioms.Prim2SF_inj. rewrite Hy.
  unfold SFeqb, SFcompare in H.
  destruct (Prim2SF x) as [s'|s'| |s' m' e']; try discriminate;
    try (destruct s'; discriminate); try (destruct s; discriminate).
  destruct s', s; try discriminate;
    destruct (Z.compare e' e) eqn:He; try discriminate;
    destruct (Pos.compare_cont Eq m' m) eqn:Hm; try discriminate;
    apply Z.compare_eq in He; apply Pos.compare_eq in Hm; now subst.
Qed.

(** [[500, 250, 100].includes(x)] holds of these three numbers only. *)
Lemma includes_sizes (x : float) :
  includes [500%float; 250%float; 100%float] x = true ->
  x = 500%float \/ x = 250%float \/ x = 100%float.
Proof.
  unfold includes, existsb, sameValueZero.
  change (PrimFloat.is_nan 500) with false.
  change (PrimFloat.is_nan 250) with false.
  change (PrimFloat.is_nan 100) with false.
  rewrite !andb_false_r, !orb_false_r.
  intros [H|[H|H]%orb_prop]%orb_prop.
  - left. now apply (eqb_finite_eq x 500%float false 8796093022208000%positive (-44)).
  - right; left.
    now apply (eqb_finite_eq x 250%float false 8796093022208000%positive (-45)).
  - right; right.
    now apply (eqb_finite_eq x 100%float false 7036874417766400%positive (-46)).
Qed.

(** C2.  For a file the viewer may see and that is not a folder: when
    [Number(size)] is one of 500, 250 and 100 the path read is
    [localPath + "_" + size], with [size] as written in the query; for every
    other [size] (absent, not a number, another number) it is [localPath];
    and when nothing is stored under the chosen path the answer is 404 "Not
    found", the same as for a missing file. *)
Theorem getFile_size_variant
  (req : request) (w : world) (viewer : option UserInfo) (file : FileDoc) :
  getCurrentUser req w = Ret viewer ->
  findPublicOrOwnFile (option_map info_id viewer) (param_id req) (files w)
    = Ret (Some file) ->
  String.eqb (file_type file) FOLDER = false ->
  let size := q_size req in
  let n := Number (of_query size) in
  let sizes := [500%float; 250%float; 100%float] in
  let read path :=
    match disk w !! path with
    | None => (Ret not_found, w)
    | Some data =>
        (Ret (mkResponse 200 (BData (mime_lookup (file_name file)) data)), w)
    end in
  (n = 500%float \/ n = 250%float \/ n = 100%float -> includes sizes n = true)
  /\ (includes sizes n = true ->
      served_path file size = file_localPath file ++ "_" ++ template size)
  /\ (includes sizes n = false -> served_path file size = file_localPath file)
  /\ (size = None -> served_path file size = file_localPath file)
  /\ (n = PrimFloat.nan -> served_path file size = file_localPath file)
  /\ (disk w !! served_path file size = None -> getFile req w = (Ret not_found, w))
  /\ (forall data, disk w !! served_path file size = Some data ->
        getFile req w
        = (Ret (mkResponse 200 (BData (mime_lookup (file_name file)) data)), w))
  /\ (includes sizes n = true -> n = 500%float \/ n = 250%float \/ n = 100%float)
  /\ (n <> 500%float -> n <> 250%float -> n <> 100%float ->
      served_path file size = file_localPath file
      /\ getFile req w = read (file_localPath file))
  /\ (forall s, size = Some (QStr s) ->
        n = 500%float \/ n = 250%float \/ n = 100%float ->
        served_path file size = file_localPath file ++ "_" ++ s
        /\ getFile req w = read (file_localPath file ++ "_" ++ s))
  /\ (forall l, size = Some (QArr l) ->
        n = 500%float \/ n = 250%float \/ n = 100%float ->
        served_path file size
        = file_localPath file ++ "_" ++ join "," (List.map ToString l))
  /\ getFile req w = read (served_path file size).
Proof.
  intros Huser Hfile Hkind size n sizes read.
  assert (Hin : n = 500%float \/ n = 250%float \/ n = 100%float ->
                includes sizes n = true)
    by (intros [-> | [-> | ->]]; reflexivity).
  assert (Hget : getFile req w = read (served_path file size)).
  { unfold getFile. rewrite Huser, Hfile, Hkind. reflexivity. }
  assert (Hother : n <> 500%float -> n <> 250%float -> n <> 100%float ->
                   served_path file size = file_localPath file).
  { intros H5 H2 H1. rewrite served_path_includes. fold size n sizes.
    destruct (includes sizes n) eqn:Hi; [|reflexivity].
    apply includes_sizes in Hi. tauto. }
  assert (Hvariant : includes sizes n = true ->
                     served_path file size
                     = file_localPath file ++ "_" ++ template size).
  { intros H. rewrite served_path_includes. fold size n sizes. now rewrite H. }
  repeat apply conj.
  - exact Hin.
  - exact Hvariant.
  - intros H. rewrite served_path_includes. fold size n sizes. now rewrite H.
  - intros H. rewrite served_path_includes. fold size. now rewrite H.
  - intros H. rewrite served_path_includes. fold size n. now rewrite H.
  - intros H. rewrite Hget. unfold read. now rewrite H.
  - intros data H. rewrite Hget. unfold read. now rewrite H.
  - apply includes_sizes.
  - intros H5 H2 H1. split; [now apply Hother|].
    now rewrite Hget, Hother.
  - intros s Hs Hn. apply Hin, Hvariant in Hn.
    rewrite Hget, Hn, Hs. split; reflexivity.
  - intros l Hl Hn. apply Hin, Hvariant in Hn. rewrite Hn, Hl. reflexivity.
  - exact Hget.
Qed.

(** C7.  When the save returns a file, the upload is answered 201 with it,
    and the queue receives exactly the job [{userId, fileId}] if the file's
    type is image, and nothing otherwise. *)
Theorem postUpload_enqueues_images
  (req : request) (w : world) (user : UserInfo) (savedFile : FileDoc)
  (files' : list FileDoc) (disk' : gmap string (list byte)) :
  getCurrentUser req w = Ret (Some user) ->
  File_save (info_id user) (b_name req) (b_type req) (b_parentId req)
    (b_isPublic req) (b_data req) (files w) (disk w)
    = (Ret savedFile, files', disk') ->
  let job := mkFileJob (info_id user) (file_id savedFile) in
  fst (postUpload req w) = Ret (mkResponse 201 (BFile savedFile))
  /\ (file_type savedFile = "image" ->
      fileQueue (snd (postUpload req w)) = (fileQueue w ++ [job])%list)
  /\ (file_type savedFile <> "image" ->
      fileQueue (snd (postUpload req w)) = fileQueue w).
Proof.
  intros Huser Hsave job. unfold postUpload. rewrite Huser, Hsave.
  destruct (String.eqb_spec (file_type savedFile) "image") as [Himg|Himg];
    repeat split; intros; try reflexivity; congruence.
Qed.

(** A job is added to the queue only by an upload whose save returned. *)
Lemma postUpload_job_after_save (req : request) (w : world) :
  fileQueue (snd (postUpload req w)) <> fileQueue w ->
  exists user savedFile files' disk',
    getCurrentUser req w = Ret (Some user)
    /\ File_save (info_id user) (b_name req) (b_type req) (b_parentId req)
         (b_isPublic req) (b_data req) (files w) (disk w)
       = (Ret savedFile, files', disk')
    /\ file_type savedFile = "image"
    /\ fileQueue (snd (postUpload req w))
       = (fileQueue w ++ [mkFileJob (info_id user) (file_id savedFile)])%list.
Proof.
  unfold postUpload.
  destruct (getCurrentUser req w) as [[user|]|e]; cbn [snd]; try congruence.
  destruct (File_save _ _ _ _ _ _ _ _) as [[[savedFile|message] files'] disk'] eqn:Hsave;
    cbn [snd]; [|cbn; congruence].
  destruct (String.eqb_spec (file_type savedFile) "image") as [Himg|Himg];
    cbn; [|congruence].
  intros _. now exists user, savedFile, files', disk'.
Qed.

(** C9.  When the construction or the save of the file throws, the upload
    is answered 400 with the error's message and both queues are as they
    were; and whenever an upload changes the queue, its save had returned an
    image. *)
Theorem postUpload_error_enqueues_nothing
  (req : request) (w : world) (user : UserInfo) (message : string)
  (files' : list FileDoc) (disk' : gmap string (list byte)) :
  getCurrentUser req w = Ret (Some user) ->
  File_save (info_id user) (b_name req) (b_type req) (b_parentId req)
    (b_isPublic req) (b_data req) (files w) (disk w)
    = (Throw message, files', disk') ->
  fst (postUpload req w) = Ret (mkResponse 400 (BError message))
  /\ fileQueue (snd (postUpload req w)) = fileQueue w
  /\ userQueue (snd (postUpload req w)) = userQueue w
  /\ (forall req' w',
        fileQueue (snd (postUpload req' w')) <> fileQueue w' ->
        exists user' savedFile files'' disk'',
          getCurrentUser req' w' = Ret (Some user')
          /\ File_save (info_id user') (b_name req') (b_type req') (b_parentId req')
               (b_isPublic req') (b_data req') (files w') (disk w')
             = (Ret savedFile, files'', disk'')
          /\ file_type savedFile = "image").
Proof.
  intros Huser Hsave. repeat apply conj.
  - unfold postUpload. now rewrite Huser, Hsave.
  - unfold postUpload. now rewrite Huser, Hsave.
  - unfold postUpload. now rewrite Huser, Hsave.
  - intros req' w' Hq.
    destruct (postUpload_job_after_save req' w' Hq)
      as (user' & savedFile & files'' & disk'' & H1 & H2 & H3 & _).
    now exists user', savedFile, files'', disk''.
Qed.

End Controller.

(* ================================================================== *)
(** ** Listing by page *)
(* ================================================================== *)

Section Listing.
Context {P : Platform}.

Lemma effective_page_nan : effective_page PrimFloat.nan = 0%float.
Proof. reflexivity. Qed.

Lemma effective_page_negative (page : float) :
  PrimFloat.ltb page 0%float = true -> effective_page page = 0%float.
Proof. intros H. unfold effective_page. now rewrite H, orb_true_r. Qed.

Lemma effective_page_zero : effective_page 0%float = 0%float.
Proof. reflexivity. Qed.

Lemma listChildren_effective userId parentId page fs :
  listChildren userId parentId page fs
  = listChildren userId parentId (effective_page page) fs.
Proof.
  unfold listChildren. f_equal. f_equal. f_equal.
  unfold effective_page.
  destruct (PrimFloat.is_nan page || PrimFloat.ltb page 0%float) eqn:H; [reflexivity|].
  now rewrite H.
Qed.

(** C1.  The listing of a signed-in user, with the File Store of the
    specification: a page that is not a number, or is below 0, counts as
    page 0; the documents returned start at offset [page * 20] and are at
    most 20; and a request whose [page] is not a number is answered exactly
    as the same request with [page=0]. *)
Theorem getIndex_page
  (newId newPath : string) (req : request) (w : world) (user : UserInfo) :
  getCurrentUser req w = Ret (Some user) ->
  let F := specFiles newId newPath in
  let raw := Number (of_query (q_page req)) in
  let children :=
    List.filter (fun f => owns (info_id user) f
                          && parent_matches (file_parentId f) (index_parentId (q_parentId req)))
      (files w) in
  let listing page :=
    listChildren (info_id user) (index_parentId (q_parentId req)) page (files w) in
  getIndex req w = (Ret (mkResponse 200 (BFiles (listing raw))), w)
  /\ listing raw
     = take 20 (skip (PrimFloat.mul (effective_page raw) 20%float) children)
  /\ (List.length (listing raw) <= 20)%nat
  /\ (raw = PrimFloat.nan -> effective_page raw = 0%float /\ listing raw = listing 0%float)
  /\ (PrimFloat.ltb raw 0%float = true ->
      effective_page raw = 0%float /\ listing raw = listing 0%float)
  /\ (StringToNumber "0" = 0%float ->
      raw = PrimFloat.nan \/ PrimFloat.ltb raw 0%float = true ->
      getIndex req w = getIndex (set_q_page (Some (QStr "0")) req) w).
Proof.
  intros Huser F raw children listing.
  assert (Hindex : forall r, getCurrentUser r w = Ret (Some user) ->
            q_parentId r = q_parentId req ->
            getIndex r w
            = (Ret (mkResponse 200 (BFiles (listing (Number (of_query (q_page r)))))), w)).
  { intros r Hr Hp. unfold getIndex. rewrite Hr, index_page_Number, Hp. reflexivity. }
  assert (Hnan : raw = PrimFloat.nan -> effective_page raw = 0%float).
  { intros ->. reflexivity. }
  assert (Hzero : forall p, effective_page p = 0%float -> listing p = listing 0%float).
  { intros p Hp. unfold listing.
    rewrite listChildren_effective, Hp. reflexivity. }
  repeat apply conj.
  - now apply Hindex.
  - reflexivity.
  - unfold listing, listChildren. rewrite length_take. lia.
  - intros H. split; [now apply Hnan|now apply Hzero, Hnan].
  - intros H. split; [|apply Hzero]; now apply effective_page_negative.
  - intros H0 Hraw. rewrite !Hindex; try reflexivity; [|exact Huser|exact Huser].
    cbn [set_q_page q_page of_query Number ToString]. rewrite H0.
    fold raw. do 4 f_equal.
    apply Hzero. destruct Hraw; [now apply Hnan|now apply effective_page_negative].
Qed.

End Listing.

(* ================================================================== *)
(** ** Ownership and visibility *)
(* ================================================================== *)

Section Store.
Context {P : Platform}.

Lemma set_files_same (w : world) : set_files (files w) w = w.
Proof. now destruct w. Qed.

Lemma find_id_absent (q : FileDoc -> bool) (id : string) (fs : list FileDoc) :
  (forall g, In g fs -> file_id g <> id) ->
  List.find (fun g => String.eqb (file_id g) id && q g) fs = None.
Proof.
  induction fs as [|a fs IH]; intros Habs; [reflexivity|].
  cbn [List.find].
  destruct (String.eqb_spec (file_id a) id) as [Heq|_].
  - exfalso. apply (Habs a); [now left|exact Heq].
  - cbn. apply IH. intros g Hg. apply Habs. now right.
Qed.

Lemma find_id_unique (q : FileDoc -> bool) (fs : list FileDoc) (f : FileDoc) :
  unique_ids fs -> In f fs ->
  List.find (fun g => String.eqb (file_id g) (file_id f) && q g) fs
  = if q f then Some f else None.
Proof.
  unfold unique_ids.
  induction fs as [|a fs IH]; intros Hnd Hin; [destruct Hin|].
  cbn [List.map] in Hnd. apply NoDup_cons in Hnd as [Hfresh Hnd].
  cbn [List.find].
  destruct Hin as [->|Hin].
  - rewrite String.eqb_refl. cbn [andb].
    destruct (q f); [reflexivity|].
    apply find_id_absent. intros g Hg Heq. apply Hfresh.
    rewrite <- Heq. apply list_elem_of_In, in_map, Hg.
  - destruct (String.eqb_spec (file_id a) (file_id f)) as [Heq|_].
    + exfalso. apply Hfresh. rewrite Heq. apply list_elem_of_In, in_map, Hin.
    + cbn [andb]. now apply IH.
Qed.

Lemma setPublication_none userId id isPublic (fs : list FileDoc) :
  (forall g, In g fs -> String.eqb (file_id g) id && owns userId g = false) ->
  setPublication userId id isPublic fs = (None, fs).
Proof.
  induction fs as [|a fs IH]; intros Hno; [reflexivity|].
  cbn [setPublication]. rewrite (Hno a) by now left.
  rewrite IH; [reflexivity|]. intros g Hg. apply Hno. now right.
Qed.

Lemma unique_ids_same (fs : list FileDoc) (f g : FileDoc) :
  unique_ids fs -> In f fs -> In g fs -> file_id f = file_id g -> f = g.
Proof.
  unfold unique_ids.
  induction fs as [|a fs IH]; intros Hnd Hf Hg Heq; [destruct Hf|].
  cbn [List.map] in Hnd. apply NoDup_cons in Hnd as [Hfresh Hnd].
  destruct Hf as [->|Hf], Hg as [->|Hg]; auto.
  - exfalso. apply Hfresh. rewrite Heq. apply list_elem_of_In, in_map, Hg.
  - exfalso. apply Hfresh. rewrite <- Heq. apply list_elem_of_In, in_map, Hf.
Qed.

(** C6.  With the File Store of the specification, a signed-in user who
    asks [getShow], [putPublish] or [putUnpublish] for a file of another user
    receives 404 "Not found" and leaves the state as it was, exactly as when
    asking for an id that no file has. *)
Theorem ownership_not_leaked
  (newId newPath : string) (req req' : request) (w : world)
  (user : UserInfo) (file : FileDoc) :
  let F := specFiles newId newPath in
  getCurrentUser req w = Ret (Some user) ->
  getCurrentUser req' w = Ret (Some user) ->
  unique_ids (files w) ->
  In file (files w) ->
  param_id req = file_id file ->
  file_userId file <> info_id user ->
  (forall g, In g (files w) -> file_id g <> param_id req') ->
  getShow req w = (Ret not_found, w)
  /\ getShow req' w = getShow req w
  /\ (forall isPublished,
        updatePublication req isPublished w = (Ret not_found, w)
        /\ updatePublication req' isPublished w = updatePublication req isPublished w).
Proof.
  intros F Hu Hu' Huniq Hin Hid Hother Habsent.
  assert (Hown : owns (info_id user) file = false).
  { unfold owns. now apply bool_decide_eq_false. }
  assert (Hshow : getShow req w = (Ret not_found, w)).
  { unfold getShow. rewrite Hu. cbn [findUserFileById F specFiles].
    unfold getOwned. rewrite Hid, find_id_unique, Hown by assumption. reflexivity. }
  assert (Hshow' : getShow req' w = (Ret not_found, w)).
  { unfold getShow. rewrite Hu'. cbn [findUserFileById F specFiles].
    unfold getOwned. now rewrite find_id_absent. }
  assert (Hpub : forall b, updatePublication req b w = (Ret not_found, w)).
  { intros b. unfold updatePublication. rewrite Hu.
    cbn [updateFilePublication F specFiles].
    rewrite setPublication_none, set_files_same; [reflexivity|].
    intros g Hg. destruct (String.eqb_spec (file_id g) (param_id req)) as [Heq|]; [|reflexivity].
    rewrite Hid in Heq.
    now rewrite (unique_ids_same (files w) g file Huniq Hg Hin Heq). }
  assert (Hpub' : forall b, updatePublication req' b w = (Ret not_found, w)).
  { intros b. unfold updatePublication. rewrite Hu'.
    cbn [updateFilePublication F specFiles].
    rewrite setPublication_none, set_files_same; [reflexivity|].
    intros g Hg. destruct (String.eqb_spec (file_id g) (param_id req')) as [Heq|]; [|reflexivity].
    now apply Habsent in Hg. }
  repeat apply conj.
  - exact Hshow.
  - now rewrite Hshow, Hshow'.
  - intros b. split; [apply Hpub|now rewrite Hpub, Hpub'].
Qed.

(** C5.  With the File Store of the specification, [getFile] on an existing
    file: a viewer who neither owns it nor finds it public receives 404; a
    visible folder is answered 400 "A folder doesn't have content"; a visible
    non-folder is answered with its content (or 404 when the bytes are
    missing).  An anonymous viewer sees the file exactly when it is public,
    its owner always sees it, and a 200 is sent only for a visible
    non-folder.  The other four handlers answer an anonymous request 401. *)
Theorem getFile_visibility
  (newId newPath : string) (req : request) (w : world)
  (viewer : option UserInfo) (file : FileDoc) :
  let F := specFiles newId newPath in
  getCurrentUser req w = Ret viewer ->
  unique_ids (files w) ->
  In file (files w) ->
  param_id req = file_id file ->
  let visible :=
    file_isPublic file || owned_by_viewer (option_map info_id viewer) file in
  let content :=
    match disk w !! served_path file (q_size req) with
    | None => not_found
    | Some data => mkResponse 200 (BData (mime_lookup (file_name file)) data)
    end in
  (visible = false -> getFile req w = (Ret not_found, w))
  /\ (visible = true -> file_type file = "folder" ->
      getFile req w = (Ret (mkResponse 400 (BError "A folder doesn't have content")), w))
  /\ (visible = true -> file_type file <> "folder" -> getFile req w = (Ret content, w))
  /\ (viewer = None -> visible = file_isPublic file)
  /\ (forall u, viewer = Some u -> info_id u = file_userId file -> visible = true)
  /\ (forall resp w', getFile req w = (Ret resp, w') -> status resp = 200%nat ->
        visible = true /\ file_type file <> "folder")
  /\ (viewer = None ->
      postUpload req w = (Ret unauthorized, w)
      /\ getShow req w = (Ret unauthorized, w)
      /\ getIndex req w = (Ret unauthorized, w)
      /\ (forall isPublished, updatePublication req isPublished w = (Ret unauthorized, w))).
Proof.
  intros F Hu Huniq Hin Hid visible content.
  assert (Hfind : findPublicOrOwnFile (option_map info_id viewer) (param_id req) (files w)
                  = Ret (if visible then Some file else None)).
  { cbn [findPublicOrOwnFile F specFiles]. unfold resolveForServing.
    now rewrite Hid, find_id_unique by assumption. }
  assert (Hhidden : visible = false -> getFile req w = (Ret not_found, w)).
  { intros Hv. unfold getFile. now rewrite Hu, Hfind, Hv. }
  assert (Hfolder : visible = true -> file_type file = "folder" ->
            getFile req w = (Ret (mkResponse 400 (BError "A folder doesn't have content")), w)).
  { intros Hv Hk. unfold getFile. rewrite Hu, Hfind, Hv, Hk. reflexivity. }
  assert (Hcontent : visible = true -> file_type file <> "folder" ->
            getFile req w = (Ret content, w)).
  { intros Hv Hk. unfold getFile. rewrite Hu, Hfind, Hv.
    cbn [FOLDER F specFiles].
    destruct (String.eqb_spec (file_type file) "folder") as [|_]; [contradiction|].
    subst content. now destruct (disk w !! _). }
  repeat apply conj.
  - exact Hhidden.
  - exact Hfolder.
  - exact Hcontent.
  - intros ->. subst visible. cbn. apply orb_false_r.
  - intros u -> Hown. subst visible. cbn. unfold owns.
    rewrite bool_decide_eq_true_2 by congruence. apply orb_true_r.
  - intros resp w' Hget Hstatus.
    destruct visible eqn:Hv.
    + split; [reflexivity|]. intros Hk.
      rewrite Hfolder in Hget by auto. injection Hget as <- _. discriminate.
    + rewrite Hhidden in Hget by auto. injection Hget as <- _. discriminate.
  - intros ->. now apply (anonymous_unauthorized (F := F)).
Qed.

End Store.

(* ================================================================== *)
(** ** Basic credentials *)
(* ================================================================== *)

Section BasicAuth.
Context {P : Platform}.

Lemma split_nonempty (sep : ascii) (s : string) : split sep s <> [].
Proof.
  destruct s as [|c rest]; cbn [split]; [discriminate|].
  destruct (Ascii.eqb c sep); [discriminate|].
  destruct (split sep rest); discriminate.
Qed.

(** No segment of a split contains the separator. *)
Lemma split_segments (sep : ascii) (s seg : string) :
  In seg (split sep s) -> ~ In sep (list_ascii_of_string seg).
Proof.
  revert seg. induction s as [|c rest IH]; intros seg Hin.
  - destruct Hin as [<-|[]]. intros [].
  - cbn [split] in Hin. destruct (Ascii.eqb_spec c sep) as [->|Hc].
    + destruct Hin as [<-|Hin]; [intros []|now apply IH].
    + pose proof (split_nonempty sep rest) as Hne.
      destruct (split sep rest) as [|hd tl]; [contradiction|].
      destruct Hin as [<-|Hin].
      * cbn [list_ascii_of_string]. intros [Heq|Hin'].
        -- now apply Hc.
        -- revert Hin'. apply IH. now left.
      * apply IH. now right.
Qed.

(** The credentials are the first two segments of the decoded token; what
    follows a second colon is dropped. *)
Lemma getBasicAuthToken_segments (req : request) (header token : string) :
  h_authorization req = Some header ->
  split " " header !! 1%nat = Some token ->
  falsy token = false ->
  getBasicAuthToken req
  = Some (split ":" (base64_decode token) !! 0%nat,
          split ":" (base64_decode token) !! 1%nat).
Proof.
  intros Hh Ht Hf. unfold getBasicAuthToken. rewrite Hh.
  destruct (falsy header) eqn:Hfh.
  - apply String.eqb_eq in Hfh. subst header. discriminate.
  - now rewrite Ht, Hf.
Qed.

(** A registered password with a colon is not the password the handler
    extracts, so it passes only if its hash collides with that of the
    extracted segment. *)
Lemma colon_password_rejected
  (token : string) (req : request) (w : world) (user : UserDoc)
  (email registered : string) :
  getBasicAuthToken req
  = Some (split ":" (base64_decode token) !! 0%nat,
          split ":" (base64_decode token) !! 1%nat) ->
  split ":" (base64_decode token) !! 0%nat = Some email ->
  registrations email w = [user] ->
  user_password user = sha1 registered ->
  In ":"%char (list_ascii_of_string registered) ->
  (forall p, sha1 p = sha1 registered -> p = registered) ->
  forall session, getConnect session req w = (Ret unauthorized, w).
Proof.
  intros Hc He Hreg Hpw Hcolon Hinj session.
  rewrite He in Hc.
  destruct (split ":" (base64_decode token) !! 1%nat) as [p|] eqn:Hp.
  - apply (getConnect_rejects session req w email p Hc).
    unfold authenticateUser.
    rewrite findUserByEmail_registrations, Hreg. cbn [head]. rewrite Hpw.
    destruct (String.eqb_spec (sha1 registered) (sha1 p)) as [Heq|]; [|reflexivity].
    exfalso. symmetry in Heq. apply Hinj in Heq. subst p.
    apply list_elem_of_lookup_2, list_elem_of_In in Hp.
    now apply split_segments in Hp.
  - unfold getConnect. rewrite Hc.
    now destruct (falsy email).
Qed.

(** C10.  Without an Authorization header, or with a header that has no
    second part, [getBasicAuthToken] returns [null]; [getConnect] then
    throws while destructuring it and sends no 401. *)
Theorem getConnect_without_credentials (session : string) (req : request) (w : world) :
  h_authorization req = None
  \/ (exists header, h_authorization req = Some header
                     /\ split " " header !! 1%nat = None) ->
  getBasicAuthToken req = None
  /\ getConnect session req w = (Throw "TypeError", w)
  /\ fst (getConnect session req w) <> Ret unauthorized.
Proof.
  intros H.
  assert (Hnull : getBasicAuthToken req = None).
  { unfold getBasicAuthToken.
    destruct H as [->|(header & -> & Hnone)]; [reflexivity|].
    destruct (falsy header); [reflexivity|now rewrite Hnone]. }
  unfold getConnect. rewrite Hnull. repeat split. discriminate.
Qed.

End BasicAuth.

(* ================================================================== *)
(** ** The statements on the example state *)
(* ================================================================== *)

Lemma unique_ids_world_uploaded : unique_ids (files world_uploaded).
Proof.
  unfold unique_ids. apply (bool_decide_unpack _). vm_compute. exact I.
Qed.

Lemma truthy_values_world_connected : truthy_values world_connected.
Proof.
  replace world_connected with
    (snd (generateSessionToken alice_token alice_id
       (snd (generateSessionToken bob_token bob_id world_registered))))
    by (vm_compute; reflexivity).
  apply truthy_values_generate; [reflexivity|].
  apply truthy_values_generate; [reflexivity|].
  intros key value expires H. vm_compute in H. discriminate.
Qed.

(** Bob lists his files with [page=abc] and with [page=0]: one answer. *)
Lemma getIndex_page_witness :
  getCurrentUser (set_q_page (Some (QStr "abc")) as_bob) world_uploaded
  = Ret (Some (mkUserInfo "bob@dylan.com" bob_id))
  /\ @getIndex examplePlatform files_image
       (set_q_page (Some (QStr "abc")) as_bob) world_uploaded
     = @getIndex examplePlatform files_image
         (set_q_page (Some (QStr "0")) (set_q_page (Some (QStr "abc")) as_bob))
         world_uploaded.
Proof.
  assert (H : getCurrentUser (set_q_page (Some (QStr "abc")) as_bob) world_uploaded
              = Ret (Some (mkUserInfo "bob@dylan.com" bob_id)))
    by (vm_compute; reflexivity).
  split; [exact H|].
  pose proof (@getIndex_page examplePlatform
                "5f1e8896c7ba06511e683b25" "/tmp/files_manager/2a1f4fc3" _ _ _ H) as T.
  cbv zeta in T. destruct T as (_ & _ & _ & _ & _ & T).
  apply T; [reflexivity|left; reflexivity].
Defined.

(** Bob asks for the 250 variant of his image. *)
Lemma getFile_size_variant_witness :
  let req := set_param_id "5f1e8896c7ba06511e683b25"
               (set_q_size (Some (QStr "250")) as_bob) in
  let file := mkFileDoc "5f1e8896c7ba06511e683b25" bob_id "photo.png" "image"
                false ParentRoot "/tmp/files_manager/2a1f4fc3" in
  getCurrentUser req world_uploaded = Ret (Some (mkUserInfo "bob@dylan.com" bob_id))
  /\ @served_path examplePlatform file (q_size req) = "/tmp/files_manager/2a1f4fc3_250"
  /\ @getFile examplePlatform files_image req world_uploaded
     = (Ret not_found, world_uploaded).
Proof.
  intros req file.
  assert (H : getCurrentUser req world_uploaded
              = Ret (Some (mkUserInfo "bob@dylan.com" bob_id)))
    by (vm_compute; reflexivity).
  split; [exact H|].
  pose proof (@getFile_size_variant examplePlatform files_image req world_uploaded
                _ file H) as T.
  cbv zeta in T.
  destruct T as (_ & T1 & _ & _ & _ & T2 & _);
    [vm_compute; reflexivity|vm_compute; reflexivity|].
  split.
  - rewrite T1; [reflexivity|vm_compute; reflexivity].
  - apply T2. vm_compute. reflexivity.
Defined.

(** Bob is given a second token, uses it and revokes it twice. *)
Lemma session_issue_resolve_revoke_witness :
  let w1 := snd (generateSessionToken "4b2c1c9e-7d0a-4c1e-9f57-0d3b1a6e2f10" bob_id
                   world_connected) in
  wf_oid bob_id
  /\ truthy_values world_connected
  /\ (exists email,
        getUserFromSession "4b2c1c9e-7d0a-4c1e-9f57-0d3b1a6e2f10" w1
        = Ret (Some (mkUserInfo email bob_id)))
  /\ fst (deleteSessionToken "4b2c1c9e-7d0a-4c1e-9f57-0d3b1a6e2f10" w1) = true
  /\ fst (deleteSessionToken "4b2c1c9e-7d0a-4c1e-9f57-0d3b1a6e2f10"
            (snd (deleteSessionToken "4b2c1c9e-7d0a-4c1e-9f57-0d3b1a6e2f10" w1)))
     = false
  /\ fst (deleteSessionToken alice_token world_connected) = true.
Proof.
  intros w1.
  pose proof (session_issue_resolve_revoke
                "4b2c1c9e-7d0a-4c1e-9f57-0d3b1a6e2f10" alice_token bob_id
                world_connected eq_refl truthy_values_world_connected) as T.
  cbv zeta in T. destruct T as (_ & _ & T3 & T4 & _ & _ & T7 & T8).
  subst w1. split; [reflexivity|]. split; [exact truthy_values_world_connected|].
  split.
  - apply (T3 (mkUserDoc bob_id "bob@dylan.com" (@sha1 examplePlatform "toto1234!")));
      [left; reflexivity|reflexivity].
  - split; [exact T4|]. split; [now rewrite T7|].
    apply T8. vm_compute. eauto.
Defined.

(** Bob's credentials, a wrong password and an unknown email. *)
Lemma authenticate_registered_once_witness :
  let bob := mkUserDoc bob_id "bob@dylan.com" "sha1(toto1234!)" in
  registrations "bob@dylan.com" world_registered = [bob]
  /\ @authenticateUser examplePlatform "bob@dylan.com" "toto1234!" world_registered
     = Some bob
  /\ @authenticateUser examplePlatform "bob@dylan.com" "toto" world_registered = None
  /\ @authenticateUser examplePlatform "carol@dylan.com" "toto1234!" world_registered
     = None.
Proof.
  intros bob.
  destruct (@authenticate_registered_once examplePlatform
              "bob@dylan.com" "toto1234!" bob world_registered eq_refl eq_refl)
    as (T1 & T2 & T3 & _).
  split; [reflexivity|]. split; [exact T1|]. split.
  - apply T2. discriminate.
  - apply T3. reflexivity.
Defined.

(** Bob registers twice. *)
Lemma postNew_duplicate_email_witness :
  @findUserByEmail "bob@dylan.com" emptyWorld = None
  /\ @postNew examplePlatform alice_id
       (set_credentials (Some "bob@dylan.com") (Some "other") emptyRequest)
       (snd (@postNew examplePlatform bob_id bob_register emptyWorld))
     = (Ret (mkResponse 400 (BError "Already exist")),
        snd (@postNew examplePlatform bob_id bob_register emptyWorld)).
Proof.
  split; [reflexivity|].
  pose proof (@postNew_duplicate_email examplePlatform bob_id alice_id bob_register
                (set_credentials (Some "bob@dylan.com") (Some "other") emptyRequest)
                "bob@dylan.com" "toto1234!" "other" emptyWorld
                eq_refl eq_refl eq_refl eq_refl eq_refl eq_refl eq_refl eq_refl) as T.
  cbv zeta in T. destruct T as (_ & T & _). exact T.
Defined.

(** Bob uploads an image: one job. *)
Lemma postUpload_enqueues_images_witness :
  getCurrentUser upload_image world_connected
  = Ret (Some (mkUserInfo "bob@dylan.com" bob_id))
  /\ fileQueue (snd (@postUpload files_image upload_image world_connected))
     = [mkFileJob bob_id "5f1e8896c7ba06511e683b25"].
Proof.
  assert (H : getCurrentUser upload_image world_connected
              = Ret (Some (mkUserInfo "bob@dylan.com" bob_id)))
    by (vm_compute; reflexivity).
  split; [exact H|].
  pose proof (@postUpload_enqueues_images files_image upload_image world_connected
                (mkUserInfo "bob@dylan.com" bob_id)
                (mkFileDoc "5f1e8896c7ba06511e683b25" bob_id "photo.png" "image"
                   false ParentRoot "/tmp/files_manager/2a1f4fc3")
                _ _ H ltac:(vm_compute; reflexivity)) as T.
  cbv zeta in T. destruct T as (_ & T & _).
  rewrite T; reflexivity.
Defined.

(** Bob uploads an image without a name: an error and no job. *)
Lemma postUpload_error_enqueues_nothing_witness :
  getCurrentUser upload_nameless world_connected
  = Ret (Some (mkUserInfo "bob@dylan.com" bob_id))
  /\ fst (@postUpload files_image upload_nameless world_connected)
     = Ret (mkResponse 400 (BError "ValidationError"))
  /\ fileQueue (snd (@postUpload files_image upload_nameless world_connected)) = [].
Proof.
  assert (H : getCurrentUser upload_nameless world_connected
              = Ret (Some (mkUserInfo "bob@dylan.com" bob_id)))
    by (vm_compute; reflexivity).
  split; [exact H|].
  pose proof (@postUpload_error_enqueues_nothing files_image upload_nameless
                world_connected (mkUserInfo "bob@dylan.com" bob_id) "ValidationError"
                _ _ H ltac:(vm_compute; reflexivity)) as T.
  destruct T as (T1 & T2 & _). split; [exact T1|]. rewrite T2. reflexivity.
Defined.

(** Nobody, then Bob, asks for Bob's private image. *)
Lemma getFile_visibility_witness :
  let req := set_param_id "5f1e8896c7ba06511e683b25" emptyRequest in
  let file := mkFileDoc "5f1e8896c7ba06511e683b25" bob_id "photo.png" "image"
                false ParentRoot "/tmp/files_manager/2a1f4fc3" in
  getCurrentUser req world_uploaded = Ret None
  /\ unique_ids (files world_uploaded)
  /\ In file (files world_uploaded)
  /\ @getFile examplePlatform files_image req world_uploaded
     = (Ret not_found, world_uploaded)
  /\ @getShow files_image req world_uploaded = (Ret unauthorized, world_uploaded).
Proof.
  intros req file.
  assert (Hin : In file (files world_uploaded)) by (vm_compute; left; reflexivity).
  assert (H : getCurrentUser req world_uploaded = Ret None) by (vm_compute; reflexivity).
  pose proof (@getFile_visibility examplePlatform
                "5f1e8896c7ba06511e683b25" "/tmp/files_manager/2a1f4fc3"
                req world_uploaded None file H
                unique_ids_world_uploaded Hin eq_refl) as T.
  cbv zeta in T. destruct T as (T1 & _ & _ & _ & _ & _ & T7).
  split; [exact H|]. split; [exact unique_ids_world_uploaded|].
  split; [exact Hin|]. split.
  - apply T1. vm_compute. reflexivity.
  - apply T7. reflexivity.
Defined.

(** Alice asks for Bob's image and for a file that does not exist. *)
Lemma ownership_not_leaked_witness :
  let req := set_param_id "5f1e8896c7ba06511e683b25" as_alice in
  let req' := set_param_id "5f1e8896c7ba06511e683b99" as_alice in
  getCurrentUser req world_uploaded = Ret (Some (mkUserInfo "alice@dylan.com" alice_id))
  /\ @getShow files_image req world_uploaded = (Ret not_found, world_uploaded)
  /\ @getShow files_image req' world_uploaded = @getShow files_image req world_uploaded
  /\ @putPublish files_image req' world_uploaded = @putPublish files_image req world_uploaded.
Proof.
  intros req req'.
  assert (H : getCurrentUser req world_uploaded
              = Ret (Some (mkUserInfo "alice@dylan.com" alice_id)))
    by (vm_compute; reflexivity).
  assert (Habsent : forall g, In g (files world_uploaded) -> file_id g <> param_id req').
  { intros g Hg. vm_compute in Hg. destruct Hg as [<-|[<-|[]]]; discriminate. }
  assert (Hin : In (mkFileDoc "5f1e8896c7ba06511e683b25" bob_id "photo.png" "image"
                      false ParentRoot "/tmp/files_manager/2a1f4fc3")
                   (files world_uploaded)) by (vm_compute; left; reflexivity).
  pose proof (@ownership_not_leaked examplePlatform
                "5f1e8896c7ba06511e683b25" "/tmp/files_manager/2a1f4fc3"
                req req' world_uploaded (mkUserInfo "alice@dylan.com" alice_id)
                _ H H unique_ids_world_uploaded
                Hin eq_refl ltac:(discriminate) Habsent) as T.
  cbv zeta in T. destruct T as (T1 & T2 & T3).
  split; [exact H|]. split; [exact T1|]. split; [exact T2|].
  apply (T3 true).
Defined.

(** A request for a session without an Authorization header. *)
Lemma getConnect_without_credentials_witness :
  h_authorization emptyRequest = None
  /\ @getConnect examplePlatform bob_token emptyRequest world_registered
     = (Throw "TypeError", world_registered).
Proof.
  split; [reflexivity|].
  apply (@getConnect_without_credentials examplePlatform bob_token emptyRequest
           world_registered (or_introl eq_refl)).
Defined.

(* ================================================================== *)
(** ** Runs of the handlers *)
(* ================================================================== *)

Example split_credentials :
  split ":" "carol@dylan.com:pa:ss" = ["carol@dylan.com"; "pa"; "ss"].
Proof. reflexivity. Qed.

Example split_header_without_token : split " " "Basic" !! 1%nat = None.
Proof. reflexivity. Qed.

Example bob_id_string : toHexString bob_id = "626f622d3030303030303031".
Proof. reflexivity. Qed.

Example ObjectId_rejects_short_string :
  ObjectId_of_string "bob"
  = Throw "Argument passed in must be a single String of 12 bytes or a string of 24 hex characters".
Proof. reflexivity. Qed.

(** Bob signs in and receives the token drawn for him. *)
Example bob_signs_in :
  fst (@getConnect examplePlatform bob_token bob_connect world_registered)
  = Ret (mkResponse 200 (BToken bob_token)).
Proof. vm_compute. reflexivity. Qed.

(** Carol registers the password "pa:ss" and can then not sign in with it:
    the handler checks "pa". *)
Example colon_password_example :
  let w := snd (@postNew examplePlatform alice_id
                  (set_credentials (Some "carol@dylan.com") (Some "pa:ss") emptyRequest)
                  emptyWorld) in
  let req := set_h_authorization (Some "Basic Y2Fyb2xAZHlsYW4uY29tOnBhOnNz") emptyRequest in
  @getBasicAuthToken examplePlatform req = Some (Some "carol@dylan.com", Some "pa")
  /\ @getConnect examplePlatform bob_token req w = (Ret unauthorized, w).
Proof. vm_compute. split; reflexivity. Qed.

(** A page that is not a number reaches the listing as NaN. *)
Example page_abc : @index_page examplePlatform (Some (QStr "abc")) = PrimFloat.nan.
Proof. reflexivity. Qed.

(** Bob reads his image; the 500 variant is not there before the worker has
    run; Alice does not see the private image. *)
Example bob_reads_image :
  fst (@getFile examplePlatform files_image
         (set_param_id "5f1e8896c7ba06511e683b25" as_bob) world_uploaded)
  = Ret (mkResponse 200 (BData (Some "image/png") (list_byte_of_string "hello"))).
Proof. vm_compute. reflexivity. Qed.

Example bob_reads_missing_variant :
  fst (@getFile examplePlatform files_image
         (set_q_size (Some (QStr "500"))
            (set_param_id "5f1e8896c7ba06511e683b25" as_bob)) world_uploaded)
  = Ret not_found.
Proof. vm_compute. reflexivity. Qed.

Example alice_reads_bobs_image :
  fst (@getFile examplePlatform files_image
         (set_param_id "5f1e8896c7ba06511e683b25" as_alice) world_uploaded)
  = Ret not_found.
Proof. vm_compute. reflexivity. Qed.

(** Once Bob has published the image, a viewer without a session reads it. *)
Example anonymous_reads_public_image :
  let w := snd (@putPublish files_image
                  (set_param_id "5f1e8896c7ba06511e683b25" as_bob) world_uploaded) in
  fst (@getFile examplePlatform files_image
         (set_param_id "5f1e8896c7ba06511e683b25" emptyRequest) w)
  = Ret (mkResponse 200 (BData (Some "image/png") (list_byte_of_string "hello"))).
Proof. vm_compute. reflexivity. Qed.

(** Two uploads, one of an image: one job. *)
Example one_job_after_two_uploads :
  fileQueue world_uploaded = [mkFileJob bob_id "5f1e8896c7ba06511e683b25"].
Proof. vm_compute. reflexivity. Qed.

(* ================================================================== *)
(** ** Sessions, registration and the handlers as a whole *)
(* ================================================================== *)

Lemma auth_key_inj (a b : string) : "auth_" ++ a = "auth_" ++ b -> a = b.
Proof. intros H. injection H as H. exact H. Qed.

Lemma find_unique_user_id (l : list UserDoc) (user : UserDoc) :
  NoDup (List.map user_id l) -> In user l ->
  List.find (fun u => bool_decide (user_id u = user_id user)) l = Some user.
Proof.
  induction l as [|a l IH]; intros Hnd Hin; [destruct Hin|].
  cbn [List.map] in Hnd. apply NoDup_cons in Hnd as [Hfresh Hnd].
  cbn [List.find]. destruct Hin as [->|Hin].
  - now rewrite bool_decide_eq_true_2.
  - rewrite bool_decide_eq_false_2; [now apply IH|].
    intros Heq. apply Hfresh. rewrite Heq. apply list_elem_of_In, in_map, Hin.
Qed.

Lemma authenticateUser_In {P : Platform} email password w user :
  authenticateUser email password w = Some user ->
  In user (users w) /\ user_email user = email /\ user_password user = sha1 password.
Proof.
  unfold authenticateUser, findUserByEmail.
  destruct (List.find _ (users w)) as [u|] eqn:Hf; [|discriminate].
  destruct (String.eqb_spec (user_password u) (sha1 password)) as [Hp|]; [|discriminate].
  intros [= <-]. apply find_some in Hf as [Hin He].
  apply String.eqb_eq in He. auto.
Qed.

(** Issuing or revoking one token leaves what every other token resolves to
    as it was. *)
Theorem sessions_independent (token other : string) (userId : ObjectId) (w : world) :
  token <> other ->
  getUserFromSession other (snd (generateSessionToken token userId w))
  = getUserFromSession other w
  /\ getUserFromSession other (snd (deleteSessionToken token w))
     = getUserFromSession other w.
Proof.
  intros Hne.
  assert (Hk : "auth_" ++ token <> "auth_" ++ other)
    by (intros H; now apply auth_key_inj in H).
  split.
  - unfold getUserFromSession, generateSessionToken, redisClient_set, redisClient_get,
      findUserById, set_redis.
    cbn [snd redis clock users]. now rewrite lookup_insert_ne.
  - unfold deleteSessionToken.
    destruct (redisClient_get ("auth_" ++ token) w) as [v|] eqn:Hg; [|reflexivity].
    destruct (falsy v); [reflexivity|].
    unfold redisClient_del. rewrite Hg.
    unfold getUserFromSession, redisClient_get, findUserById, set_redis.
    cbn [snd redis clock users]. now rewrite lookup_delete_ne.
Qed.

(** An identity comes only from a live session of a stored user: the
    request carries a non-empty token, the cache holds a value under its key,
    and that value is the id of a user of the collection, whose email and id
    are the ones returned. *)
Theorem getCurrentUser_sound (req : request) (w : world) (info : UserInfo) :
  getCurrentUser req w = Ret (Some info) ->
  exists token value user,
    h_x_token req = Some token
    /\ falsy token = false
    /\ redisClient_get ("auth_" ++ token) w = Some value
    /\ falsy value = false
    /\ ObjectId_of_string value = Ret (user_id user)
    /\ In user (users w)
    /\ info = mkUserInfo (user_email user) (user_id user).
Proof.
  unfold getCurrentUser, getSessionToken.
  destruct (h_x_token req) as [token|]; [|discriminate].
  destruct (falsy token) eqn:Ht; [discriminate|].
  unfold getUserFromSession.
  destruct (redisClient_get _ w) as [value|] eqn:Hg; [|discriminate].
  destruct (falsy value) eqn:Hv; [discriminate|].
  unfold findUserById.
  destruct (ObjectId_of_string value) as [oid|e] eqn:Ho; [|discriminate].
  cbn. destruct (List.find _ (users w)) as [user|] eqn:Hf; [|discriminate].
  intros [= <-]. apply find_some in Hf as [Hin Hid].
  apply bool_decide_eq_true in Hid.
  exists token, value, user. rewrite Hid. auto 10.
Qed.

Section Handlers.
Context {P : Platform} {F : FilesModule}.

Lemma getCurrentUser_no_session (req : request) (w : world) :
  falsy_opt (h_x_token req) = true
  \/ (exists token, h_x_token req = Some token
                    /\ redisClient_get ("auth_" ++ token) w = None) ->
  getCurrentUser req w = Ret None.
Proof.
  intros H. unfold getCurrentUser, getSessionToken.
  destruct H as [H|(token & Ht & Hg)].
  - destruct (h_x_token req) as [t|]; [|reflexivity]. cbn in H. now rewrite H.
  - rewrite Ht. destruct (falsy token); [reflexivity|].
    unfold getUserFromSession. now rewrite Hg.
Qed.

Lemma getDisconnect_no_session (req : request) (w : world) :
  falsy_opt (h_x_token req) = true
  \/ (exists token, h_x_token req = Some token
                    /\ redisClient_get ("auth_" ++ token) w = None) ->
  getDisconnect req w = (Ret unauthorized, w).
Proof.
  intros H. unfold getDisconnect, getSessionToken.
  destruct H as [H|(token & Ht & Hg)].
  - destruct (h_x_token req) as [t|]; [|reflexivity]. cbn in H. now rewrite H.
  - rewrite Ht. destruct (falsy token); [reflexivity|].
    unfold deleteSessionToken. now rewrite Hg.
Qed.

(** A request whose X-Token is missing or empty, or names a key the cache
    does not hold, has no current user: every handler that requires one
    answers 401 and changes nothing. *)
Theorem no_session_unauthorized (req : request) (w : world) :
  falsy_opt (h_x_token req) = true
  \/ (exists token, h_x_token req = Some token
                    /\ redisClient_get ("auth_" ++ token) w = None) ->
  getCurrentUser req w = Ret None
  /\ getMe req w = (Ret unauthorized, w)
  /\ getDisconnect req w = (Ret unauthorized, w)
  /\ postUpload req w = (Ret unauthorized, w)
  /\ getShow req w = (Ret unauthorized, w)
  /\ getIndex req w = (Ret unauthorized, w)
  /\ (forall isPublished, updatePublication req isPublished w = (Ret unauthorized, w)).
Proof.
  intros H. pose proof (getCurrentUser_no_session req w H) as Hnone.
  split; [exact Hnone|].
  split; [unfold getMe; now rewrite Hnone|].
  split; [now apply getDisconnect_no_session|now apply anonymous_unauthorized].
Qed.

(** Signing out of a live session answers 204 and deletes exactly its key:
    the same token is then refused by [getMe] and by a second sign-out, and
    the other tokens resolve as before. *)
Theorem getDisconnect_closes_session (req : request) (w : world) (token value : string) :
  h_x_token req = Some token ->
  falsy token = false ->
  redisClient_get ("auth_" ++ token) w = Some value ->
  falsy value = false ->
  let w' := snd (getDisconnect req w) in
  fst (getDisconnect req w) = Ret (mkResponse 204 BEmpty)
  /\ w' = set_redis (delete ("auth_" ++ token) (redis w)) w
  /\ getMe req w' = (Ret unauthorized, w')
  /\ getDisconnect req w' = (Ret unauthorized, w')
  /\ (forall other, other <> token ->
        getUserFromSession other w' = getUserFromSession other w).
Proof.
  intros Hh Ht Hg Hv w'.
  assert (Hd : getDisconnect req w
               = (Ret (mkResponse 204 BEmpty),
                  set_redis (delete ("auth_" ++ token) (redis w)) w)).
  { unfold getDisconnect, getSessionToken, deleteSessionToken, redisClient_del.
    now rewrite Hh, Ht, Hg, Hv. }
  assert (Hgone : redisClient_get ("auth_" ++ token) w' = None).
  { subst w'. rewrite Hd. unfold redisClient_get, set_redis. cbn [snd redis].
    now rewrite lookup_delete_eq. }
  assert (Hno : falsy_opt (h_x_token req) = true
                \/ (exists t, h_x_token req = Some t
                              /\ redisClient_get ("auth_" ++ t) w' = None))
    by (right; eauto).
  pose proof (getDisconnect_no_session req w' Hno) as Hdis.
  assert (Hme : getMe req w' = (Ret unauthorized, w'))
    by (unfold getMe; now rewrite (getCurrentUser_no_session req w' Hno)).
  repeat apply conj; auto.
  - now rewrite Hd.
  - subst w'. now rewrite Hd.
  - intros other Hne. subst w'. rewrite Hd. cbn [snd].
    assert (Hk : "auth_" ++ token <> "auth_" ++ other)
      by (intros H; apply auth_key_inj in H; congruence).
    unfold getUserFromSession, redisClient_get, findUserById, set_redis.
    cbn [redis clock users]. now rewrite lookup_delete_ne.
Qed.

End Handlers.

Lemma find_append {A : Type} (f : A -> bool) (l1 l2 : list A) :
  List.find f (l1 ++ l2)
  = match List.find f l1 with Some x => Some x | None => List.find f l2 end.
Proof.
  induction l1 as [|a l1 IH]; [reflexivity|].
  cbn [app List.find]. now destruct (f a).
Qed.

Section Login.
Context {P : Platform}.

(** The world after a successful [getConnect]. *)
Lemma getConnect_success token req w email password user :
  getBasicAuthToken req = Some (Some email, Some password) ->
  falsy email = false -> falsy password = false ->
  authenticateUser email password w = Some user ->
  getConnect token req w
  = (Ret (mkResponse 200 (BToken token)),
     set_redis (<["auth_" ++ token := (toHexString (user_id user), clock w + 86400)]>
                  (redis w)) w).
Proof.
  intros Hc He Hp Ha. unfold getConnect. rewrite Hc, He. cbn [falsy_opt orb].
  rewrite Hp, Ha. reflexivity.
Qed.

(** [getMe] on a state whose cache holds the id of a stored user under the
    token's key. *)
Lemma getMe_with_session (me : request) (w : world) (token : string)
  (user : UserDoc) (expires : Z) :
  h_x_token me = Some token -> falsy token = false ->
  redis w !! ("auth_" ++ token) = Some (toHexString (user_id user), expires) ->
  wf_oid (user_id user) ->
  NoDup (List.map user_id (users w)) ->
  In user (users w) ->
  getMe me w
  = if clock w <? expires
    then (Ret (mkResponse 200 (BUser (mkUserInfo (user_email user) (user_id user)))), w)
    else (Ret unauthorized, w).
Proof.
  intros Hh Ht Hl Hwf Hnd Hin.
  unfold getMe, getCurrentUser, getSessionToken, getUserFromSession, redisClient_get.
  rewrite Hh, Ht, Hl. destruct (clock w <? expires); [|reflexivity].
  rewrite truthy_toHexString by exact Hwf.
  unfold findUserById. rewrite ObjectId_toHexString by exact Hwf.
  cbn. now rewrite find_unique_user_id by assumption.
Qed.

(** After a successful [getConnect] the token identifies the user for 24
    hours: [getMe] answers 200 with the user's email and id at any time
    before [24 * 60 * 60] seconds have passed, and 401 from then on. *)
Theorem session_lives_24h
  (token : string) (req me : request) (w : world)
  (email password : string) (user : UserDoc) (t : Z) :
  getBasicAuthToken req = Some (Some email, Some password) ->
  falsy email = false -> falsy password = false ->
  authenticateUser email password w = Some user ->
  wf_oid (user_id user) ->
  NoDup (List.map user_id (users w)) ->
  h_x_token me = Some token ->
  falsy token = false ->
  let later := set_clock t (snd (getConnect token req w)) in
  fst (getConnect token req w) = Ret (mkResponse 200 (BToken token))
  /\ (clock w <= t < clock w + 86400 ->
      getMe me later
      = (Ret (mkResponse 200 (BUser (mkUserInfo email (user_id user)))), later))
  /\ (clock w + 86400 <= t -> getMe me later = (Ret unauthorized, later)).
Proof.
  intros Hc He Hp Ha Hwf Hnd Hh Ht later.
  pose proof (getConnect_success token req w email password user Hc He Hp Ha) as Hg.
  destruct (authenticateUser_In _ _ _ _ Ha) as (Hin & Hemail & _).
  subst later. rewrite Hg. cbn [fst snd].
  split; [reflexivity|].
  rewrite (getMe_with_session me _ token user (clock w + 86400) Hh Ht);
    [|unfold set_clock, set_redis; cbn [redis]; apply lookup_insert_eq
     |exact Hwf|exact Hnd|exact Hin].
  unfold set_clock. cbn [clock]. rewrite Hemail.
  split; intros Htime; destruct (Z.ltb_spec t (clock w + 86400)); (reflexivity || lia).
Qed.

(** Credentials without a colon, with an empty password or with an empty
    email are refused with 401 before the database is consulted, and nothing
    changes. *)
Theorem getConnect_incomplete_credentials
  (session : string) (req : request) (w : world) (header token : string) :
  h_authorization req = Some header ->
  split " " header !! 1%nat = Some token ->
  falsy token = false ->
  let parts := split ":" (base64_decode token) in
  parts !! 1%nat = None \/ parts !! 1%nat = Some "" \/ parts !! 0%nat = Some "" ->
  getConnect session req w = (Ret unauthorized, w).
Proof.
  intros Hh Ht Hf parts Hparts.
  unfold getConnect. rewrite (getBasicAuthToken_segments req header token Hh Ht Hf).
  fold parts.
  destruct (parts !! 0%nat) as [email|]; [|reflexivity].
  destruct Hparts as [-> | [-> | [= ->]]].
  - cbn. now rewrite orb_true_r.
  - cbn. now rewrite orb_true_r.
  - reflexivity.
Qed.

(** The state after an accepted registration. *)
Lemma postNew_success (newId : ObjectId) (req : request) (w : world)
  (email password : string) :
  b_email req = Some email -> b_password req = Some password ->
  falsy email = false -> falsy password = false ->
  findUserByEmail email w = None ->
  postNew newId req w
  = (Ret (mkResponse 201 (BUser (mkUserInfo email newId))),
     set_userQueue (userQueue w ++ [mkUserJob newId])
       (set_users (users w ++ [mkUserDoc newId email (sha1 password)]) w)).
Proof.
  intros He Hp Hte Htp Hfresh. unfold postNew.
  rewrite He, Hte, Hp, Htp, Hfresh. reflexivity.
Qed.

Lemma authenticateUser_appended (w : world) (q : list UserJob)
  (newId : ObjectId) (email password : string) :
  findUserByEmail email w = None ->
  authenticateUser email password
    (set_userQueue q (set_users (users w ++ [mkUserDoc newId email (sha1 password)]) w))
  = Some (mkUserDoc newId email (sha1 password)).
Proof.
  intros Hfresh.
  unfold authenticateUser, findUserByEmail in *. cbn [users set_userQueue set_users].
  rewrite find_append, Hfresh. cbn. now rewrite !String.eqb_refl.
Qed.

(** A registration with an email and a password, the email not yet
    registered, answers 201 with the email and the new id, appends one
    document holding the SHA-1 of the password, adds one job with the new id
    to the user queue and touches nothing else; the pair then authenticates. *)
Theorem postNew_registers
  (newId : ObjectId) (req : request) (w : world) (email password : string) :
  b_email req = Some email -> b_password req = Some password ->
  falsy email = false -> falsy password = false ->
  findUserByEmail email w = None ->
  let w' := snd (postNew newId req w) in
  fst (postNew newId req w) = Ret (mkResponse 201 (BUser (mkUserInfo email newId)))
  /\ users w' = (users w ++ [mkUserDoc newId email (sha1 password)])%list
  /\ userQueue w' = (userQueue w ++ [mkUserJob newId])%list
  /\ redis w' = redis w /\ files w' = files w /\ disk w' = disk w
  /\ fileQueue w' = fileQueue w
  /\ authenticateUser email password w' = Some (mkUserDoc newId email (sha1 password)).
Proof.
  intros He Hp Hte Htp Hfresh w'. subst w'.
  rewrite (postNew_success newId req w email password He Hp Hte Htp Hfresh).
  cbn [fst snd]. repeat apply conj; try reflexivity.
  now apply authenticateUser_appended.
Qed.

(** A registration that runs from its lookup to its insert with no other
    request in between leaves the emails pairwise distinct. *)
Lemma postNew_alone_keeps_emails_unique (newId : ObjectId) (req : request) (w : world) :
  NoDup (List.map user_email (users w)) ->
  NoDup (List.map user_email (users (snd (postNew newId req w)))).
Proof.
  intros Hnd. unfold postNew.
  destruct (b_email req) as [email|]; [|exact Hnd].
  destruct (falsy email); [exact Hnd|].
  destruct (b_password req) as [password|]; [|exact Hnd].
  destruct (falsy password); [exact Hnd|].
  destruct (findUserByEmail email w) as [u|] eqn:Hf; [exact Hnd|].
  cbn [snd addUser users set_userQueue set_users user_email].
  rewrite List.map_app. cbn [List.map user_email].
  apply NoDup_app. split; [exact Hnd|]. split; [|apply NoDup_singleton].
  intros e He [->|[]]%list_elem_of_In.
  apply list_elem_of_In, in_map_iff in He as (u & Hue & Hin).
  apply (find_none _ _ Hf) in Hin. cbn in Hin.
  rewrite Hue, String.eqb_refl in Hin. discriminate.
Qed.

(** After [addUser] with a fresh twelve-byte id the new document is found
    by its id; it is found by its email when the email was free; an email
    that already had a document keeps it (the first one wins, [addUser] does
    not check); and the other emails are unaffected. *)
Theorem addUser_then_find
  (newId : ObjectId) (email password : string) (w : world) :
  wf_oid newId ->
  (forall u, In u (users w) -> user_id u <> newId) ->
  let doc := mkUserDoc newId email (sha1 password) in
  let w' := snd (addUser newId email password w) in
  fst (addUser newId email password w) = mkUserInfo email newId
  /\ findUserById (toHexString newId) w' = Ret (Some doc)
  /\ (findUserByEmail email w = None -> findUserByEmail email w' = Some doc)
  /\ (forall e u, findUserByEmail e w = Some u -> findUserByEmail e w' = Some u)
  /\ (forall e, e <> email -> findUserByEmail e w' = findUserByEmail e w).
Proof.
  intros Hwf Hfresh doc w'. subst w'. unfold addUser. cbn [fst snd].
  repeat apply conj.
  - reflexivity.
  - unfold findUserById. rewrite ObjectId_toHexString by exact Hwf. cbn.
    rewrite find_append.
    destruct (List.find _ (users w)) as [u|] eqn:Hf.
    + apply find_some in Hf as [Hin Hid]. apply bool_decide_eq_true in Hid.
      now apply Hfresh in Hin.
    + cbn. now rewrite bool_decide_eq_true_2.
  - intros Hnone. unfold findUserByEmail in *. cbn [users set_users].
    rewrite find_append, Hnone. cbn. now rewrite String.eqb_refl.
  - intros e u Hsome. unfold findUserByEmail in *. cbn [users set_users].
    now rewrite find_append, Hsome.
  - intros e Hne. unfold findUserByEmail. cbn [users set_users].
    rewrite find_append. destruct (List.find _ (users w)); [reflexivity|].
    cbn. destruct (String.eqb_spec email e); [congruence|reflexivity].
Qed.

(** Register, sign in with the same credentials, then ask who you are: the
    answer is the registered email and the id given at registration. *)
Theorem register_login_me
  (newId : ObjectId) (token : string) (reg login me : request) (w : world)
  (email password : string) :
  b_email reg = Some email -> b_password reg = Some password ->
  falsy email = false -> falsy password = false ->
  findUserByEmail email w = None ->
  wf_oid newId ->
  NoDup (List.map user_id (users w)) ->
  (forall u, In u (users w) -> user_id u <> newId) ->
  getBasicAuthToken login = Some (Some email, Some password) ->
  h_x_token me = Some token -> falsy token = false ->
  let w1 := snd (postNew newId reg w) in
  let w2 := snd (getConnect token login w1) in
  fst (getConnect token login w1) = Ret (mkResponse 200 (BToken token))
  /\ getMe me w2 = (Ret (mkResponse 200 (BUser (mkUserInfo email newId))), w2).
Proof.
  intros He Hp Hte Htp Hfresh Hwf Hnd Hid Hc Hh Ht w1 w2.
  pose proof (postNew_success newId reg w email password He Hp Hte Htp Hfresh) as Hreg.
  set (doc := mkUserDoc newId email (sha1 password)) in *.
  assert (Hw1 : w1 = set_userQueue (userQueue w ++ [mkUserJob newId])
                       (set_users (users w ++ [doc]) w))
    by (subst w1; now rewrite Hreg).
  assert (Hauth : authenticateUser email password w1 = Some doc)
    by (rewrite Hw1; now apply authenticateUser_appended).
  pose proof (getConnect_success token login w1 email password doc Hc Hte Htp Hauth) as Hg.
  subst w2. rewrite Hg. cbn [fst snd]. split; [reflexivity|].
  rewrite (getMe_with_session me _ token doc (clock w1 + 86400) Hh Ht);
    [|unfold set_redis; cbn [redis]; apply lookup_insert_eq
     |exact Hwf| |].
  - unfold set_redis at 1. cbn [clock].
    destruct (Z.ltb_spec (clock w1) (clock w1 + 86400)); [reflexivity|lia].
  - rewrite Hw1. cbn [users set_redis set_userQueue set_users].
    rewrite List.map_app. cbn [List.map user_id doc].
    apply NoDup_app. split; [exact Hnd|]. split; [|apply NoDup_singleton].
    intros i Hi [->|[]]%list_elem_of_In.
    apply list_elem_of_In, in_map_iff in Hi as (u & Hu & Hin). now apply Hid in Hin.
  - rewrite Hw1. cbn [users set_redis set_userQueue set_users].
    apply in_or_app. right. now left.
Qed.

End Login.

Section FilesHandlers.
Context {P : Platform} {F : FilesModule}.

(** The four reading handlers change nothing, whatever they answer. *)
Theorem read_handlers_keep_state (req : request) (w : world) :
  snd (getMe req w) = w
  /\ snd (getShow req w) = w
  /\ snd (getIndex req w) = w
  /\ snd (getFile req w) = w.
Proof.
  repeat apply conj.
  - unfold getMe. now destruct (getCurrentUser req w) as [[u|]|e].
  - unfold getShow. destruct (getCurrentUser req w) as [[u|]|e]; try reflexivity.
    now destruct (findUserFileById _ _ _) as [[f|]|e].
  - unfold getIndex. destruct (getCurrentUser req w) as [[u|]|e]; try reflexivity.
    now destruct (findAllUserFilesByParentId _ _ _ _) as [l|e].
  - unfold getFile. destruct (getCurrentUser req w) as [u|e]; try reflexivity.
    destruct (findPublicOrOwnFile _ _ _) as [[f|]|e]; try reflexivity.
    destruct (String.eqb (file_type f) FOLDER); [reflexivity|].
    now destruct (disk w !! _).
Qed.

Lemma postUpload_frame (req : request) (w : world) :
  redis (snd (postUpload req w)) = redis w
  /\ clock (snd (postUpload req w)) = clock w
  /\ users (snd (postUpload req w)) = users w
  /\ userQueue (snd (postUpload req w)) = userQueue w.
Proof.
  unfold postUpload.
  destruct (getCurrentUser req w) as [[u|]|e]; try (repeat split; reflexivity).
  destruct (File_save _ _ _ _ _ _ _ _) as [[[f|m] fs] d]; try (repeat split; reflexivity).
  destruct (String.eqb (file_type f) "image"); repeat split; reflexivity.
Qed.

Lemma updatePublication_frame (req : request) (isPublished : bool) (w : world) :
  redis (snd (updatePublication req isPublished w)) = redis w
  /\ clock (snd (updatePublication req isPublished w)) = clock w
  /\ users (snd (updatePublication req isPublished w)) = users w
  /\ userQueue (snd (updatePublication req isPublished w)) = userQueue w
  /\ disk (snd (updatePublication req isPublished w)) = disk w
  /\ fileQueue (snd (updatePublication req isPublished w)) = fileQueue w.
Proof.
  unfold updatePublication.
  destruct (getCurrentUser req w) as [[u|]|e]; try (repeat split; reflexivity).
  destruct (updateFilePublication _ _ _ _) as [[[f|]|m] fs]; repeat split; reflexivity.
Qed.

(** An upload never touches the cache, the users or the user queue, and a
    change of publication touches nothing but the file collection.  The file
    collection and the disk after an upload are the ones the save left, also
    when it threw: the controller undoes nothing. *)
Theorem write_handlers_frame (req : request) (isPublished : bool) (w : world) :
  let up := snd (postUpload req w) in
  let pub := snd (updatePublication req isPublished w) in
  (redis up = redis w /\ clock up = clock w /\ users up = users w
   /\ userQueue up = userQueue w)
  /\ (redis pub = redis w /\ clock pub = clock w /\ users pub = users w
      /\ userQueue pub = userQueue w /\ disk pub = disk w
      /\ fileQueue pub = fileQueue w)
  /\ (forall user,
        getCurrentUser req w = Ret (Some user) ->
        files up = snd (fst (File_save (info_id user) (b_name req) (b_type req)
                               (b_parentId req) (b_isPublic req) (b_data req)
                               (files w) (disk w)))
        /\ disk up = snd (File_save (info_id user) (b_name req) (b_type req)
                            (b_parentId req) (b_isPublic req) (b_data req)
                            (files w) (disk w))
        /\ files pub = snd (updateFilePublication (info_id user) (param_id req)
                              isPublished (files w))).
Proof.
  intros up pub.
  split; [apply postUpload_frame|]. split; [apply updatePublication_frame|].
  subst up pub. unfold postUpload, updatePublication.
  intros user ->. repeat apply conj.
  1-2: destruct (File_save _ _ _ _ _ _ _ _) as [[[f|m] fs] d]; try reflexivity;
       now destruct (String.eqb (file_type f) "image").
  destruct (updateFilePublication _ _ _ _) as [[[f|]|m] fs]; reflexivity.
Qed.

(** The status codes of the file handlers: 401 exactly when there is no
    current user for the four that require one (otherwise 201 or 400 for an
    upload, 200 or 404 for a lookup or a change of publication, 200 for a
    listing), and 200, 400 or 404, never 401, for [getFile]. *)
Theorem status_codes (req : request) (isPublished : bool) (w : world) (resp : response) :
  (fst (postUpload req w) = Ret resp ->
   (status resp = 401%nat /\ getCurrentUser req w = Ret None)
   \/ ((status resp = 201%nat \/ status resp = 400%nat)
       /\ exists user, getCurrentUser req w = Ret (Some user)))
  /\ (fst (getShow req w) = Ret resp ->
      (status resp = 401%nat /\ getCurrentUser req w = Ret None)
      \/ ((status resp = 200%nat \/ status resp = 404%nat)
          /\ exists user, getCurrentUser req w = Ret (Some user)))
  /\ (fst (getIndex req w) = Ret resp ->
      (status resp = 401%nat /\ getCurrentUser req w = Ret None)
      \/ (status resp = 200%nat
          /\ exists user, getCurrentUser req w = Ret (Some user)))
  /\ (fst (updatePublication req isPublished w) = Ret resp ->
      (status resp = 401%nat /\ getCurrentUser req w = Ret None)
      \/ ((status resp = 200%nat \/ status resp = 404%nat)
          /\ exists user, getCurrentUser req w = Ret (Some user)))
  /\ (fst (getFile req w) = Ret resp ->
      status resp = 200%nat \/ status resp = 400%nat \/ status resp = 404%nat).
Proof.
  repeat apply conj.
  - unfold postUpload. destruct (getCurrentUser req w) as [[u|]|e]; cbn [fst].
    + destruct (File_save _ _ _ _ _ _ _ _) as [[[f|m] fs] d]; cbn [fst];
        intros [= <-]; right; eauto.
    + intros [= <-]. now left.
    + discriminate.
  - unfold getShow. destruct (getCurrentUser req w) as [[u|]|e]; cbn [fst].
    + destruct (findUserFileById _ _ _) as [[f|]|m]; cbn [fst];
        [intros [= <-]; right; eauto..|discriminate].
    + intros [= <-]. now left.
    + discriminate.
  - unfold getIndex. destruct (getCurrentUser req w) as [[u|]|e]; cbn [fst].
    + destruct (findAllUserFilesByParentId _ _ _ _) as [l|m]; cbn [fst];
        [intros [= <-]; right; eauto|discriminate].
    + intros [= <-]. now left.
    + discriminate.
  - unfold updatePublication. destruct (getCurrentUser req w) as [[u|]|e]; cbn [fst].
    + destruct (updateFilePublication _ _ _ _) as [[[f|]|m] fs]; cbn [fst];
        [intros [= <-]; right; eauto..|discriminate].
    + intros [= <-]. now left.
    + discriminate.
  - unfold getFile. destruct (getCurrentUser req w) as [u|e]; cbn [fst]; [|discriminate].
    destruct (findPublicOrOwnFile _ _ _) as [[f|]|m]; cbn [fst];
      [|intros [= <-]; auto|discriminate].
    destruct (String.eqb (file_type f) FOLDER); cbn [fst]; [intros [= <-]; auto|].
    destruct (disk w !! _); cbn [fst]; intros [= <-]; auto.
Qed.

(** A listing without [parentId], with an empty one and with [parentId=0]
    lists the root: the three requests have one answer. *)
Theorem getIndex_root_parent (req : request) (w : world) (p1 p2 : option qval) :
  root_parent p1 -> root_parent p2 ->
  index_parentId p1 = ParentZero
  /\ getIndex (set_q_parentId p1 req) w = getIndex (set_q_parentId p2 req) w.
Proof.
  assert (Hroot : forall p, root_parent p -> index_parentId p = ParentZero).
  { intros p [-> | [-> | ->]]; reflexivity. }
  intros H1 H2. split; [now apply Hroot|].
  unfold getIndex. cbn [set_q_parentId q_parentId q_page].
  rewrite (Hroot p1 H1), (Hroot p2 H2).
  reflexivity.
Qed.

(** Any other string, an array or an object is handed to the collection as
    it came. *)
Theorem getIndex_other_parent (v : qval) :
  v <> QStr "" -> v <> QStr "0" -> index_parentId (Some v) = ParentQuery v.
Proof.
  intros H1 H2. destruct v as [s| |]; try reflexivity. cbn [index_parentId].
  destruct (String.eqb_spec s "0") as [->|]; [congruence|].
  unfold falsy. destruct (String.eqb_spec s "") as [->|]; [congruence|reflexivity].
Qed.

End FilesHandlers.

Section App.
Context {P : Platform}.

(** With the database connected, [getStats] reports the sizes of the two
    collections: a registration that is accepted raises the number of users
    by one, a refused one changes neither number. *)
Theorem getStats_counts_registrations
  (c : clients) (newId : ObjectId) (req : request) (w : world) (resp : response) :
  db_isConnected c = true ->
  fst (postNew newId req w) = Ret resp ->
  getStats c w = Ret (200%nat, AStats (List.length (users w)) (List.length (files w)))
  /\ (status resp = 201%nat ->
      getStats c (snd (postNew newId req w))
      = Ret (200%nat, AStats (S (List.length (users w))) (List.length (files w))))
  /\ (status resp <> 201%nat ->
      getStats c (snd (postNew newId req w)) = getStats c w).
Proof.
  intros Hc. unfold getStats, nbUsers, nbFiles. rewrite Hc. cbn [mbind result_bind mret result_ret].
  unfold postNew.
  destruct (b_email req) as [email|]; [|intros [= <-]; cbn; intuition congruence].
  destruct (falsy email); [intros [= <-]; cbn; intuition congruence|].
  destruct (b_password req) as [password|]; [|intros [= <-]; cbn; intuition congruence].
  destruct (falsy password); [intros [= <-]; cbn; intuition congruence|].
  destruct (findUserByEmail email w); [intros [= <-]; cbn; intuition congruence|].
  cbn [fst snd addUser users files set_userQueue set_users].
  intros [= <-]. cbn [status]. rewrite length_app. cbn [List.length].
  repeat split; try congruence. intros _. do 3 f_equal. lia.
Qed.

(** Until the database client is connected [getStats] throws, while
    [getStatus] answers 200 and reports the database as down. *)
Theorem getStats_before_connection (c : clients) (w : world) :
  db_isConnected c = false ->
  getStats c w = Throw "TypeError"
  /\ getStatus c = (200%nat, AStatus (redis_isConnected c) false).
Proof.
  intros Hc. unfold getStats, nbUsers, getStatus, dbClient_isAlive, redisClient_isAlive.
  now rewrite Hc.
Qed.

End App.

Lemma well_formed_empty : well_formed emptyWorld.
Proof.
  split; [intros u []|].
  intros key value expires H. cbn in H. now rewrite lookup_empty in H.
Qed.

Lemma well_formed_same (w w' : world) :
  users w' = users w -> redis w' = redis w -> well_formed w -> well_formed w'.
Proof. unfold well_formed. now intros -> ->. Qed.

Section Invariant.
Context {P : Platform} {F : FilesModule}.

Lemma well_formed_postNew (newId : ObjectId) (req : request) (w : world) :
  well_formed w -> wf_oid newId -> well_formed (snd (postNew newId req w)).
Proof.
  intros Hw Hnew. pose proof Hw as [Hids Hcache]. unfold postNew.
  destruct (b_email req) as [email|]; [|exact Hw].
  destruct (falsy email); [exact Hw|].
  destruct (b_password req) as [password|]; [|exact Hw].
  destruct (falsy password); [exact Hw|].
  destruct (findUserByEmail email w); [exact Hw|].
  split; cbn [snd addUser users redis set_userQueue set_users]; [|exact Hcache].
  intros u [Hin|[<-|[]]]%in_app_or; [now apply Hids|exact Hnew].
Qed.

Lemma well_formed_getConnect (token : string) (req : request) (w : world) :
  well_formed w -> well_formed (snd (getConnect token req w)).
Proof.
  intros Hw. pose proof Hw as [Hids Hcache]. unfold getConnect.
  destruct (getBasicAuthToken req) as [[[email|] password]|]; try exact Hw.
  destruct (falsy email || falsy_opt password); [exact Hw|].
  destruct password as [password|]; [|exact Hw].
  destruct (authenticateUser email password w) as [user|] eqn:Ha; [|exact Hw].
  apply authenticateUser_In in Ha as (Hin & _).
  split; cbn [snd generateSessionToken redisClient_set set_redis users redis];
    [exact Hids|].
  intros key value expires. rewrite lookup_insert. case_decide.
  - intros [= <- _]. exists (user_id user). split; [now apply Hids|reflexivity].
  - apply Hcache.
Qed.

Lemma well_formed_getDisconnect (req : request) (w : world) :
  well_formed w -> well_formed (snd (getDisconnect req w)).
Proof.
  intros Hw. pose proof Hw as [Hids Hcache].
  assert (Hdel : forall t, well_formed (snd (deleteSessionToken t w))).
  { intros t. unfold deleteSessionToken.
    destruct (redisClient_get _ w) as [v|] eqn:Hg; [|exact Hw].
    destruct (falsy v); [exact Hw|].
    unfold redisClient_del. rewrite Hg. unfold set_redis. cbn [snd].
    split; cbn [users redis]; [exact Hids|].
    intros key value expires. rewrite lookup_delete.
    case_decide; [discriminate|apply Hcache]. }
  unfold getDisconnect.
  destruct (getSessionToken req) as [t|]; [|exact Hw].
  specialize (Hdel t). destruct (deleteSessionToken t w) as [r w'].
  now destruct r.
Qed.

(** Every handler that writes keeps the state well formed, given that new
    ids are twelve bytes. *)
Theorem handlers_keep_well_formed
  (newId : ObjectId) (token : string) (isPublished : bool) (req : request) (w : world) :
  well_formed w ->
  wf_oid newId ->
  well_formed (snd (postNew newId req w))
  /\ well_formed (snd (getConnect token req w))
  /\ well_formed (snd (getDisconnect req w))
  /\ well_formed (snd (postUpload req w))
  /\ well_formed (snd (updatePublication req isPublished w)).
Proof.
  intros Hw Hnew.
  split; [now apply well_formed_postNew|].
  split; [now apply well_formed_getConnect|].
  split; [now apply well_formed_getDisconnect|].
  split.
  - destruct (postUpload_frame req w) as (Hr & _ & Hu & _).
    now apply (well_formed_same w).
  - destruct (updatePublication_frame req isPublished w) as (Hr & _ & Hu & _).
    now apply (well_formed_same w).
Qed.

(** On a well-formed state the conversion of the cached id cannot fail, so
    the lookup chain returns once the database handle is there. *)
Lemma cached_id_converts (req : request) (w : world) :
  well_formed w ->
  (exists user, getCurrentUser req w = Ret user)
  /\ (exists resp, getMe req w = (Ret resp, w)).
Proof.
  intros [_ Hcache].
  assert (H : exists user, getCurrentUser req w = Ret user).
  { unfold getCurrentUser.
    destruct (getSessionToken req) as [token|]; [|now eexists].
    unfold getUserFromSession, redisClient_get.
    destruct (redis w !! _) as [[value expires]|] eqn:Hl; [|now eexists].
    destruct (clock w <? expires); [|now eexists].
    destruct (falsy value); [now eexists|].
    destruct (Hcache _ _ _ Hl) as (o & Hwf & ->).
    unfold findUserById. rewrite ObjectId_toHexString by exact Hwf. cbn.
    destruct (List.find _ (users w)); now eexists. }
  split; [exact H|].
  destruct H as [user H]. unfold getMe. rewrite H.
  destruct user; now eexists.
Qed.

End Invariant.

(** The stand-in for SHA-1 of the examples maps no two strings to one. *)
Lemma length_append (a b : string) :
  String.length (a ++ b) = (String.length a + String.length b)%nat.
Proof. induction a as [|x a IH]; [reflexivity|]. simpl. now f_equal. Qed.

Lemma append_inj_r (a b c : string) : a ++ c = b ++ c -> a = b.
Proof.
  intros H.
  assert (Hlen : String.length a = String.length b).
  { apply (f_equal String.length) in H. rewrite !length_append in H. lia. }
  revert b H Hlen. induction a as [|x a IH]; intros [|y b] H Hlen;
    try discriminate; [reflexivity|].
  cbn in H. injection H as -> H. f_equal. apply IH; [exact H|].
  cbn in Hlen. lia.
Qed.

Lemma example_sha1_inj (a b : string) : example_sha1 a = example_sha1 b -> a = b.
Proof.
  unfold example_sha1. intros H. injection H as H.
  change (a ++ ")" = b ++ ")") in H. now apply append_inj_r in H.
Qed.

(* ================================================================== *)
(** ** These statements on the example state *)
(* ================================================================== *)

Lemma well_formed_world_connected : well_formed world_connected.
Proof.
  unfold world_connected, world_registered.
  do 2 apply well_formed_getConnect.
  apply well_formed_postNew; [|reflexivity].
  apply well_formed_postNew; [|reflexivity].
  apply well_formed_empty.
Qed.

Lemma unique_user_ids_world_registered :
  NoDup (List.map user_id (users world_registered)).
Proof. apply (bool_decide_unpack _). vm_compute. exact I. Qed.

(** Alice's session is not affected by a new token for Bob. *)
Lemma sessions_independent_witness :
  "4b2c1c9e-7d0a-4c1e-9f57-0d3b1a6e2f10" <> alice_token
  /\ getUserFromSession alice_token
       (snd (generateSessionToken "4b2c1c9e-7d0a-4c1e-9f57-0d3b1a6e2f10" bob_id
               world_connected))
     = getUserFromSession alice_token world_connected.
Proof.
  assert (H : "4b2c1c9e-7d0a-4c1e-9f57-0d3b1a6e2f10" <> alice_token) by discriminate.
  split; [exact H|].
  apply (sessions_independent _ alice_token bob_id world_connected H).
Defined.

(** Bob's identity comes from his session. *)
Lemma getCurrentUser_sound_witness :
  getCurrentUser as_bob world_connected = Ret (Some (mkUserInfo "bob@dylan.com" bob_id))
  /\ exists token value user,
       h_x_token as_bob = Some token
       /\ falsy token = false
       /\ redisClient_get ("auth_" ++ token) world_connected = Some value
       /\ falsy value = false
       /\ ObjectId_of_string value = Ret (user_id user)
       /\ In user (users world_connected)
       /\ mkUserInfo "bob@dylan.com" bob_id
          = mkUserInfo (user_email user) (user_id user).
Proof.
  assert (H : getCurrentUser as_bob world_connected
              = Ret (Some (mkUserInfo "bob@dylan.com" bob_id)))
    by (vm_compute; reflexivity).
  split; [exact H|].
  apply (getCurrentUser_sound as_bob world_connected _ H).
Defined.

(** A request without a token. *)
Lemma no_session_unauthorized_witness :
  falsy_opt (h_x_token emptyRequest) = true
  /\ @getMe emptyRequest world_connected = (Ret unauthorized, world_connected)
  /\ @getDisconnect emptyRequest world_connected = (Ret unauthorized, world_connected).
Proof.
  split; [reflexivity|].
  destruct (@no_session_unauthorized examplePlatform files_image emptyRequest world_connected
              (or_introl eq_refl)) as (_ & T1 & T2 & _).
  split; [exact T1|exact T2].
Defined.

(** Bob signs out. *)
Lemma getDisconnect_closes_session_witness :
  redisClient_get ("auth_" ++ bob_token) world_connected
  = Some "626f622d3030303030303031"
  /\ fst (getDisconnect as_bob world_connected) = Ret (mkResponse 204 BEmpty)
  /\ getMe as_bob (snd (getDisconnect as_bob world_connected))
     = (Ret unauthorized, snd (getDisconnect as_bob world_connected)).
Proof.
  assert (H : redisClient_get ("auth_" ++ bob_token) world_connected
              = Some "626f622d3030303030303031") by (vm_compute; reflexivity).
  split; [exact H|].
  pose proof (getDisconnect_closes_session as_bob world_connected bob_token _
                eq_refl eq_refl H eq_refl) as T.
  cbv zeta in T. destruct T as (T1 & _ & T3 & _).
  split; [exact T1|exact T3].
Defined.

(** Bob signs in; an hour later he is still known. *)
Lemma session_lives_24h_witness :
  @getBasicAuthToken examplePlatform bob_connect
  = Some (Some "bob@dylan.com", Some "toto1234!")
  /\ getMe as_bob
       (set_clock 3600 (snd (@getConnect examplePlatform bob_token bob_connect
                               world_registered)))
     = (Ret (mkResponse 200 (BUser (mkUserInfo "bob@dylan.com" bob_id))),
        set_clock 3600 (snd (@getConnect examplePlatform bob_token bob_connect
                               world_registered))).
Proof.
  assert (H : @getBasicAuthToken examplePlatform bob_connect
              = Some (Some "bob@dylan.com", Some "toto1234!"))
    by (vm_compute; reflexivity).
  split; [exact H|].
  pose proof (@session_lives_24h examplePlatform bob_token bob_connect as_bob
                world_registered "bob@dylan.com" "toto1234!"
                (mkUserDoc bob_id "bob@dylan.com" "sha1(toto1234!)") 3600
                H eq_refl eq_refl ltac:(vm_compute; reflexivity) eq_refl
                unique_user_ids_world_registered eq_refl eq_refl) as T.
  cbv zeta in T. destruct T as (_ & T & _).
  apply T. vm_compute. split; [discriminate|reflexivity].
Defined.

(** Bob sends his email without a password. *)
Lemma getConnect_incomplete_credentials_witness :
  split " " "Basic Ym9iQGR5bGFuLmNvbQ==" !! 1%nat = Some "Ym9iQGR5bGFuLmNvbQ=="
  /\ split ":" (@base64_decode examplePlatform "Ym9iQGR5bGFuLmNvbQ==") !! 1%nat = None
  /\ @getConnect examplePlatform bob_token bob_without_password world_registered
     = (Ret unauthorized, world_registered).
Proof.
  split; [reflexivity|]. split; [vm_compute; reflexivity|].
  apply (@getConnect_incomplete_credentials examplePlatform bob_token
           bob_without_password world_registered
           "Basic Ym9iQGR5bGFuLmNvbQ==" "Ym9iQGR5bGFuLmNvbQ==" eq_refl eq_refl eq_refl).
  left. vm_compute. reflexivity.
Defined.

(** Carol cannot sign in with the password she registered. *)
Lemma colon_password_rejected_witness :
  registrations "carol@dylan.com" world_carol
  = [mkUserDoc carol_id "carol@dylan.com" "sha1(pa:ss)"]
  /\ In ":"%char (list_ascii_of_string "pa:ss")
  /\ @getConnect examplePlatform bob_token carol_connect world_carol
     = (Ret unauthorized, world_carol).
Proof.
  split; [reflexivity|].
  assert (Hcolon : In ":"%char (list_ascii_of_string "pa:ss"))
    by (right; right; left; reflexivity).
  split; [exact Hcolon|].
  apply (@colon_password_rejected examplePlatform "Y2Fyb2xAZHlsYW4uY29tOnBhOnNz"
           carol_connect world_carol
           (mkUserDoc carol_id "carol@dylan.com" "sha1(pa:ss)")
           "carol@dylan.com" "pa:ss");
    [vm_compute; reflexivity|vm_compute; reflexivity|reflexivity|reflexivity
    |exact Hcolon|].
  intros p Hp. now apply example_sha1_inj.
Defined.

(** Bob registers on the empty state. *)
Lemma postNew_registers_witness :
  @findUserByEmail "bob@dylan.com" emptyWorld = None
  /\ users (snd (@postNew examplePlatform bob_id bob_register emptyWorld))
     = [mkUserDoc bob_id "bob@dylan.com" "sha1(toto1234!)"]
  /\ userQueue (snd (@postNew examplePlatform bob_id bob_register emptyWorld))
     = [mkUserJob bob_id].
Proof.
  split; [reflexivity|].
  pose proof (@postNew_registers examplePlatform bob_id bob_register emptyWorld
                "bob@dylan.com" "toto1234!"
                eq_refl eq_refl eq_refl eq_refl eq_refl) as T.
  cbv zeta in T. destruct T as (_ & T2 & T3 & _).
  split; [exact T2|exact T3].
Defined.

(** Carol's document is added next to Bob's and Alice's. *)
Lemma addUser_then_find_witness :
  wf_oid carol_id
  /\ findUserById (toHexString carol_id)
       (snd (@addUser examplePlatform carol_id "carol@dylan.com" "pa:ss" world_registered))
     = Ret (Some (mkUserDoc carol_id "carol@dylan.com" "sha1(pa:ss)"))
  /\ findUserByEmail "bob@dylan.com"
       (snd (@addUser examplePlatform carol_id "carol@dylan.com" "pa:ss" world_registered))
     = findUserByEmail "bob@dylan.com" world_registered.
Proof.
  split; [reflexivity|].
  assert (Hfresh : forall u, In u (users world_registered) -> user_id u <> carol_id).
  { intros u Hu. vm_compute in Hu. destruct Hu as [<-|[<-|[]]]; discriminate. }
  pose proof (@addUser_then_find examplePlatform carol_id "carol@dylan.com" "pa:ss"
                world_registered eq_refl Hfresh) as T.
  cbv zeta in T. destruct T as (_ & T2 & _ & _ & T5).
  split; [exact T2|]. apply T5. discriminate.
Defined.

(** Bob registers, signs in and asks who he is. *)
Lemma register_login_me_witness :
  @getBasicAuthToken examplePlatform bob_connect
  = Some (Some "bob@dylan.com", Some "toto1234!")
  /\ getMe as_bob
       (snd (@getConnect examplePlatform bob_token bob_connect
               (snd (@postNew examplePlatform bob_id bob_register emptyWorld))))
     = (Ret (mkResponse 200 (BUser (mkUserInfo "bob@dylan.com" bob_id))),
        snd (@getConnect examplePlatform bob_token bob_connect
               (snd (@postNew examplePlatform bob_id bob_register emptyWorld)))).
Proof.
  assert (H : @getBasicAuthToken examplePlatform bob_connect
              = Some (Some "bob@dylan.com", Some "toto1234!"))
    by (vm_compute; reflexivity).
  split; [exact H|].
  pose proof (@register_login_me examplePlatform bob_id bob_token bob_register
                bob_connect as_bob emptyWorld "bob@dylan.com" "toto1234!"
                eq_refl eq_refl eq_refl eq_refl eq_refl eq_refl
                (NoDup_nil_2 : NoDup (List.map user_id (users emptyWorld)))
                ltac:(intros u []) H eq_refl eq_refl) as T.
  cbv zeta in T. destruct T as (_ & T). exact T.
Defined.

(** Bob lists the root with [parentId=0] and without [parentId]. *)
Lemma getIndex_root_parent_witness :
  root_parent (Some (QStr "0")) /\ root_parent None
  /\ @getIndex examplePlatform files_image
       (set_q_parentId (Some (QStr "0")) as_bob) world_uploaded
     = @getIndex examplePlatform files_image (set_q_parentId None as_bob) world_uploaded.
Proof.
  assert (H1 : root_parent (Some (QStr "0"))) by (right; right; reflexivity).
  assert (H2 : root_parent None) by (left; reflexivity).
  split; [exact H1|]. split; [exact H2|].
  apply (@getIndex_root_parent examplePlatform files_image as_bob world_uploaded
           _ _ H1 H2).
Defined.

(** The counts before and after Bob's registration. *)
Lemma getStats_counts_registrations_witness :
  db_isConnected example_clients = true
  /\ getStats example_clients emptyWorld = Ret (200%nat, AStats 0 0)
  /\ getStats example_clients
       (snd (@postNew examplePlatform bob_id bob_register emptyWorld))
     = Ret (200%nat, AStats 1 0).
Proof.
  split; [reflexivity|].
  destruct (@getStats_counts_registrations examplePlatform example_clients bob_id
              bob_register emptyWorld
              (mkResponse 201 (BUser (mkUserInfo "bob@dylan.com" bob_id)))
              eq_refl eq_refl) as (T1 & T2 & _).
  split; [exact T1|]. apply T2. reflexivity.
Defined.

(** The database client before its connection is up. *)
Lemma getStats_before_connection_witness :
  db_isConnected (mkClients true false) = false
  /\ getStats (mkClients true false) world_registered = Throw "TypeError"
  /\ getStatus (mkClients true false) = (200%nat, AStatus true false).
Proof.
  split; [reflexivity|].
  apply (getStats_before_connection (mkClients true false) world_registered eq_refl).
Defined.

(** Carol registers on the state where Bob and Alice are signed in. *)
Lemma handlers_keep_well_formed_witness :
  well_formed world_connected /\ wf_oid carol_id
  /\ well_formed (snd (@postNew examplePlatform carol_id carol_register world_connected))
  /\ well_formed (snd (@getDisconnect as_bob world_connected)).
Proof.
  split; [exact well_formed_world_connected|]. split; [reflexivity|].
  destruct (@handlers_keep_well_formed examplePlatform files_image carol_id bob_token
              true carol_register world_connected well_formed_world_connected eq_refl)
    as (T1 & _).
  split; [exact T1|].
  destruct (@handlers_keep_well_formed examplePlatform files_image carol_id bob_token
              true as_bob world_connected well_formed_world_connected eq_refl)
    as (_ & _ & T3 & _).
  exact T3.
Defined.

(* ================================================================== *)
(** ** Registrations that interleave, and lookups before the connection *)
(* ================================================================== *)

Section Interleaving.
Context {P : Platform}.

(** [postNew] is its check followed at once by its insert. *)
Lemma postNew_two_awaits (newId : ObjectId) (req : request) (w : world) :
  postNew newId req w
  = match postNew_check req w with
    | inl resp => (Ret resp, w)
    | inr (email, password) => postNew_insert newId email password w
    end.
Proof.
  unfold postNew, postNew_check, postNew_insert.
  destruct (b_email req) as [email|]; [|reflexivity].
  destruct (falsy email); [reflexivity|].
  destruct (b_password req) as [password|]; [|reflexivity].
  destruct (falsy password); [reflexivity|].
  now destruct (findUserByEmail email w).
Qed.

(** A registration that runs from its lookup to its insert with no other
    registration in between keeps the emails of the collection pairwise
    distinct.  The lookup and the insert are two awaits, though, and nothing
    else guards the email: when two registrations of a free email both look
    it up before either inserts, both are answered 201 and the collection
    holds two documents with that email. *)
Theorem postNew_emails_unique_unless_interleaved
  (newId id1 id2 : ObjectId) (req req1 req2 : request)
  (email pw1 pw2 : string) (w w0 : world) :
  NoDup (List.map user_email (users w)) ->
  b_email req1 = Some email -> b_password req1 = Some pw1 ->
  b_email req2 = Some email -> b_password req2 = Some pw2 ->
  falsy email = false -> falsy pw1 = false -> falsy pw2 = false ->
  findUserByEmail email w0 = None ->
  let first := postNew_insert id1 email pw1 w0 in
  let second := postNew_insert id2 email pw2 (snd first) in
  NoDup (List.map user_email (users (snd (postNew newId req w))))
  /\ postNew_check req1 w0 = inr (email, pw1)
  /\ postNew_check req2 w0 = inr (email, pw2)
  /\ fst first = Ret (mkResponse 201 (BUser (mkUserInfo email id1)))
  /\ fst second = Ret (mkResponse 201 (BUser (mkUserInfo email id2)))
  /\ users (snd second)
     = (users w0 ++ [mkUserDoc id1 email (sha1 pw1); mkUserDoc id2 email (sha1 pw2)])%list
  /\ ~ NoDup (List.map user_email (users (snd second))).
Proof.
  intros Hnd He1 Hp1 He2 Hp2 Hte Ht1 Ht2 Hfree first second.
  assert (Husers : users (snd second)
            = (users w0 ++ [mkUserDoc id1 email (sha1 pw1);
                            mkUserDoc id2 email (sha1 pw2)])%list).
  { subst first second. unfold postNew_insert, addUser.
    cbn [snd users set_userQueue set_users]. now rewrite <- app_assoc. }
  repeat apply conj.
  - now apply postNew_alone_keeps_emails_unique.
  - unfold postNew_check. now rewrite He1, Hte, Hp1, Ht1, Hfree.
  - unfold postNew_check. now rewrite He2, Hte, Hp2, Ht2, Hfree.
  - reflexivity.
  - reflexivity.
  - exact Husers.
  - rewrite Husers, List.map_app. cbn [List.map user_email].
    intros (_ & _ & Htwo)%NoDup_app.
    apply NoDup_cons in Htwo as [Hnotin _]. apply Hnotin. now left.
Qed.

End Interleaving.

(** On a well-formed state the lookup of the current user throws exactly
    when the database handle is missing and the request carries a live
    session: with the handle it always returns (and [getMe] answers), and
    without it a request with no live session is still answered 401, while
    one with a live session makes [getCurrentUser] and [getMe] throw. *)
Theorem getCurrentUser_throws_without_database
  (c : clients) (req : request) (w : world) :
  well_formed w ->
  (db_isConnected c = true ->
   getCurrentUser_on c req w = getCurrentUser req w
   /\ getMe_on c req w = getMe req w
   /\ (exists user, getCurrentUser_on c req w = Ret user)
   /\ (exists resp, getMe_on c req w = (Ret resp, w)))
  /\ (db_isConnected c = false ->
      (falsy_opt (h_x_token req) = true
       \/ (exists token, h_x_token req = Some token
                         /\ redisClient_get ("auth_" ++ token) w = None) ->
       getCurrentUser_on c req w = Ret None
       /\ getMe_on c req w = (Ret unauthorized, w))
      /\ (forall token value,
            h_x_token req = Some token -> falsy token = false ->
            redisClient_get ("auth_" ++ token) w = Some value ->
            getCurrentUser_on c req w = Throw "TypeError"
            /\ getMe_on c req w = (Throw "TypeError", w))).
Proof.
  intros Hw. split; intros Hc.
  - assert (Hsame : getCurrentUser_on c req w = getCurrentUser req w).
    { unfold getCurrentUser_on, getCurrentUser, getUserFromSession_on,
        getUserFromSession, findUserById_on. now rewrite Hc. }
    assert (Hme : getMe_on c req w = getMe req w)
      by (unfold getMe_on, getMe; now rewrite Hsame).
    destruct (cached_id_converts req w Hw) as [Hu Hr].
    rewrite Hsame, Hme. auto.
  - split.
    + intros Hno.
      assert (Hnone : getCurrentUser_on c req w = Ret None).
      { unfold getCurrentUser_on, getSessionToken.
        destruct Hno as [H|(token & Ht & Hg)].
        - destruct (h_x_token req) as [t|]; [|reflexivity]. cbn in H. now rewrite H.
        - rewrite Ht. destruct (falsy token); [reflexivity|].
          unfold getUserFromSession_on. now rewrite Hg. }
      split; [exact Hnone|]. unfold getMe_on. now rewrite Hnone.
    + intros token value Hh Ht Hg.
      assert (Hv : falsy value = false).
      { destruct Hw as [_ Hcache]. unfold redisClient_get in Hg.
        destruct (redis w !! _) as [[v e]|] eqn:Hl; [|discriminate].
        destruct (clock w <? e); [|discriminate]. injection Hg as <-.
        destruct (Hcache _ _ _ Hl) as (o & Hwf & ->). now apply truthy_toHexString. }
      assert (Hthrow : getCurrentUser_on c req w = Throw "TypeError").
      { unfold getCurrentUser_on, getSessionToken, getUserFromSession_on,
          findUserById_on.
        now rewrite Hh, Ht, Hg, Hv, Hc. }
      split; [exact Hthrow|]. unfold getMe_on. now rewrite Hthrow.
Qed.

(** Carol and a second Carol register at once on the state where Bob and
    Alice are registered. *)
Lemma postNew_emails_unique_unless_interleaved_witness :
  NoDup (List.map user_email (users world_registered))
  /\ @findUserByEmail "carol@dylan.com" world_registered = None
  /\ List.map user_email
       (users (snd (@postNew_insert examplePlatform alice_id "carol@dylan.com" "other"
                      (snd (@postNew_insert examplePlatform carol_id "carol@dylan.com"
                              "pa:ss" world_registered)))))
     = ["bob@dylan.com"; "alice@dylan.com"; "carol@dylan.com"; "carol@dylan.com"].
Proof.
  assert (H : NoDup (List.map user_email (users world_registered)))
    by (apply (bool_decide_unpack _); vm_compute; exact I).
  assert (Hfree : @findUserByEmail "carol@dylan.com" world_registered = None)
    by (vm_compute; reflexivity).
  split; [exact H|]. split; [exact Hfree|].
  pose proof (@postNew_emails_unique_unless_interleaved examplePlatform
                carol_id carol_id alice_id bob_register carol_register
                (set_credentials (Some "carol@dylan.com") (Some "other") emptyRequest)
                "carol@dylan.com" "pa:ss" "other" world_registered world_registered
                H eq_refl eq_refl eq_refl eq_refl eq_refl eq_refl eq_refl Hfree) as T.
  cbv zeta in T. destruct T as (_ & _ & _ & _ & _ & T & _).
  rewrite T. vm_compute. reflexivity.
Defined.

(** Bob's request with the database connected, and before it is. *)
Lemma getCurrentUser_throws_without_database_witness :
  well_formed world_connected
  /\ getMe_on example_clients as_bob world_connected = getMe as_bob world_connected
  /\ getMe_on (mkClients true false) as_bob world_connected
     = (Throw "TypeError", world_connected)
  /\ getMe_on (mkClients true false) emptyRequest world_connected
     = (Ret unauthorized, world_connected).
Proof.
  split; [exact well_formed_world_connected|].
  destruct (getCurrentUser_throws_without_database example_clients as_bob
              world_connected well_formed_world_connected) as [T _].
  destruct (T eq_refl) as (_ & T1 & _).
  split; [exact T1|].
  destruct (getCurrentUser_throws_without_database (mkClients true false) as_bob
              world_connected well_formed_world_connected) as [_ T2].
  destruct (T2 eq_refl) as [_ T3].
  split.
  - apply (T3 bob_token "626f622d3030303030303031"); [reflexivity|reflexivity|].
    vm_compute. reflexivity.
  - destruct (getCurrentUser_throws_without_database (mkClients true false)
                emptyRequest world_connected well_formed_world_connected) as [_ T4].
    destruct (T4 eq_refl) as [T5 _]. apply T5. left. reflexivity.
Defined.

(** A size that is a number other than the three reads the original. *)
Example bob_reads_size_300 :
  fst (@getFile examplePlatform files_image
         (set_q_size (Some (QStr "300"))
            (set_param_id "5f1e8896c7ba06511e683b25" as_bob)) world_uploaded)
  = Ret (mkResponse 200 (BData (Some "image/png") (list_byte_of_string "hello"))).
Proof. vm_compute. reflexivity. Qed.

(** The suffix is the parameter as written: an array of one string. *)
Example served_path_of_array :
  @served_path examplePlatform
    (mkFileDoc "5f1e8896c7ba06511e683b25" bob_id "photo.png" "image" false
       ParentRoot "/tmp/files_manager/2a1f4fc3")
    (Some (QArr [QStr "100"]))
  = "/tmp/files_manager/2a1f4fc3_100".
Proof. vm_compute. reflexivity. Qed.
